(** * bondnet: the training notebook [bondnet/scripts/train_bde.ipynb]

    A shallow embedding of the three code cells of the notebook that carry
    logic: [train] (cell 5), [evaluate] (cell 6) and the main training loop
    with its checkpoint (cell 7).

    - Python floats are IEEE 754 binary64 values: [spec_float] with
      precision 53 and maximal exponent 1024, with the operations of
      [SpecFloat].  Division raises [ZeroDivisionError] on a zero divisor, as
      Python's float division does.
    - The torch objects (model, optimizer, loss and metric functions, tensors)
      come from outside the notebook: they are the fields of the class
      [Torch], and every definition and theorem is parametric in them.
    - The notebook mutates the model, the optimizer, the global [best], the
      file [checkpoint.pkl] and the standard output: these make up the record
      [World], threaded through a state-and-exception monad [M].  The world
      also keeps the sequence of calls made on the torch objects. *)

From Stdlib Require Import String ZArith List Bool Lia SpecFloat.
Import ListNotations.
Local Open Scope Z_scope.
Local Open Scope list_scope.

(** ** Python floats *)

(** The values of Python's [float]. *)
Definition float : Type := spec_float.

Module PyFloat.

Definition prec : Z := 53.
Definition emax : Z := 1024.

(** [x + y], [x / y] (on a non-zero divisor) and [x < y] on floats. *)
Definition add (x y : float) : float := SFadd prec emax x y.
Definition div (x y : float) : float := SFdiv prec emax x y.
Definition ltb (x y : float) : bool := SFltb x y.
Definition leb (x y : float) : bool := SFleb x y.

(** The float nearest to an integer (ties to even), as Python converts an
    [int] operand of a float operation.  [len(...)] and loop indices are far
    below [2^1024], where the conversion would overflow. *)
Definition of_int (n : Z) : float := binary_normalize prec emax n 0 false.

Definition zero : float := S754_zero false.
Definition nan : float := S754_nan.

(** [y == 0.0]: true of both signed zeros. *)
Definition is_zero (y : float) : bool :=
  match y with
  | S754_zero _ => true
  | _ => false
  end.

Definition is_nan (y : float) : bool :=
  match y with
  | S754_nan => true
  | _ => false
  end.

(** [math.isfinite(y)]: neither an infinity nor NaN. *)
Definition is_finite (y : float) : bool :=
  match y with
  | S754_zero _ | S754_finite _ _ _ => true
  | _ => false
  end.

(** [+0.0], a positive finite float or [+inf]; the exponent of a finite
    float is at least the least exponent of the format. *)
Definition is_positive (x : float) : bool :=
  match x with
  | S754_infinity false => true
  | S754_finite false _ e => emin prec emax <=? e
  | _ => false
  end.

(** The float of a positive integer below [2^53]: its mantissa is the
    integer shifted left to 53 binary digits. *)
Definition canonical (n : Z) : float :=
  S754_finite false (Z.to_pos (n * 2 ^ (prec - (Z.log2 n + 1))))
    (Z.log2 n + 1 - prec).

(** Left-to-right accumulation [acc += x] from [acc]. *)
Definition sum_from (acc : float) (xs : list float) : float :=
  fold_left add xs acc.

End PyFloat.

(** The order of floats, on integer keys. *)

Module PyFloatOrder.
Import PyFloat.

(** A key on which the comparison of floats other than NaN is the
    lexicographic order of integers. *)
Definition key (x : float) : Z * Z * Z :=
  match x with
  | S754_zero _ => (0, 0, 0)
  | S754_infinity false => (2, 0, 0)
  | S754_infinity true => (-2, 0, 0)
  | S754_nan => (0, 0, 0)
  | S754_finite false m e => (1, e, Zpos m)
  | S754_finite true m e => (-1, - e, - Zpos m)
  end.

Definition key_lt (a b : Z * Z * Z) : Prop :=
  let '(a1, a2, a3) := a in
  let '(b1, b2, b3) := b in
  a1 < b1 \/ (a1 = b1 /\ (a2 < b2 \/ (a2 = b2 /\ a3 < b3))).

End PyFloatOrder.

(** ** Exceptions and results *)

Inductive exn : Type :=
| ZeroDivisionError
| UnboundLocalError
| FileNotFoundError.

Inductive result (A : Type) : Type :=
| Ok (a : A)
| Raise (e : exn).

Arguments Ok {A} a.
Arguments Raise {A} e.

(** ** The torch collaborators *)

(** What the notebook needs of the objects it imports.  [Tensor] stands for
    torch tensors together with the autograd graph they carry. *)
Class Torch : Type := {
  (** [model.state_dict()]: the parameters of the model. *)
  Params : Type;
  (** The [.grad] buffers of the parameters. *)
  Grad : Type;
  (** The internal state of the optimizer. *)
  OptState : Type;
  Graph : Type;
  Feats : Type;
  Reaction : Type;
  Tensor : Type;
  (** [t.detach().item()] *)
  item : Tensor -> float;
  (** [len(t)] *)
  len : Tensor -> nat;
  (** [{nt: batched_graph.nodes[nt].data["feat"] for nt in nodes}] *)
  node_feats : list string -> Graph -> Feats;
  (** [model(batched_graph, feats, reaction).view(-1)], which depends on the
      mode of the model ([model.training]) and on its parameters. *)
  model_call : bool -> Params -> Graph -> Feats -> Reaction -> Tensor;
  (** Gradient buffers after [optimizer.zero_grad()]. *)
  grad_zero : Grad;
  (** [t.backward()] adds the gradient of [t] to the [.grad] buffers. *)
  grad_of : Tensor -> Grad;
  grad_add : Grad -> Grad -> Grad;
  (** [optimizer.step()]: new optimizer state and parameters from the current
      gradient buffers. *)
  opt_step : OptState -> Grad -> Params -> OptState * Params;
  (** [torch.optim.Adam(model.parameters(), lr=0.001)] *)
  Adam : Params -> OptState;
  (** [MSELoss(reduction="mean")] *)
  MSELoss : Tensor -> Tensor -> Tensor;
  (** [WeightedL1Loss(reduction="sum")] *)
  WeightedL1Loss : Tensor -> Tensor -> Tensor -> Tensor
}.

(** ** Batches, output lines, calls and the world *)

Section Notebook.

Context {T : Torch}.

(** The [label] dictionary of a batch: the keys the notebook reads. *)
Record Label : Type := {
  value : Tensor;
  scaler_stdev : Tensor;
  reaction : Reaction
}.

(** What a data loader yields: [(batched_graph, label)]. *)
Definition Batch : Type := (Graph * Label)%type.

(** The lines the notebook prints. *)
Inductive Line : Type :=
| LHeader
| LProgress (epoch : nat) (loss train_acc val_acc : float)
| LTestAcc (test_acc : float).

(** Calls on the torch objects, the file system and the standard output. *)
Inductive Call : Type :=
| EvModelTrain
| EvModelEval
| EvNoGradEnter
| EvNoGradExit
| EvModelCall
| EvLossFn
| EvZeroGrad
| EvBackward
| EvStep
| EvMetricFn
| EvSave (state : Params)
| EvLoad
| EvLoadStateDict
| EvPrint (l : Line).

Record World : Type := {
  (** [model.state_dict()] *)
  state_dict : Params;
  (** [model.training] *)
  training : bool;
  (** [torch.is_grad_enabled()] *)
  grad_enabled : bool;
  (** the [.grad] buffers of the parameters *)
  grad : Grad;
  (** the state of [optimizer] *)
  optimizer : OptState;
  (** the global [best] *)
  best : float;
  (** the file [checkpoint.pkl], when it exists *)
  checkpoint_pkl : option Params;
  (** the calls made so far, oldest first *)
  calls : list Call
}.

(** ** The monad: state and exceptions *)

Definition M (A : Type) : Type := World -> World * result A.

Definition ret {A : Type} (a : A) : M A := fun w => (w, Ok a).

Definition raise {A : Type} (e : exn) : M A := fun w => (w, Raise e).

Definition bind {A B : Type} (m : M A) (k : A -> M B) : M B :=
  fun w =>
    match m w with
    | (w', Ok a) => k a w'
    | (w', Raise e) => (w', Raise e)
    end.

Notation "x <- m ;; k" := (bind m (fun x => k))
  (at level 61, m at next level, right associativity).
Notation "m ;; k" := (bind m (fun _ => k))
  (at level 61, right associativity).

Definition update (f : World -> World) : M unit := fun w => (f w, Ok tt).

Definition gets {A : Type} (f : World -> A) : M A := fun w => (w, Ok (f w)).

Definition log (c : Call) (w : World) : World :=
  {| state_dict := state_dict w; training := training w;
     grad_enabled := grad_enabled w; grad := grad w;
     optimizer := optimizer w; best := best w;
     checkpoint_pkl := checkpoint_pkl w; calls := calls w ++ [c] |}.

Definition set_training (b : bool) (w : World) : World :=
  {| state_dict := state_dict w; training := b;
     grad_enabled := grad_enabled w; grad := grad w;
     optimizer := optimizer w; best := best w;
     checkpoint_pkl := checkpoint_pkl w; calls := calls w |}.

Definition set_grad_enabled (b : bool) (w : World) : World :=
  {| state_dict := state_dict w; training := training w;
     grad_enabled := b; grad := grad w;
     optimizer := optimizer w; best := best w;
     checkpoint_pkl := checkpoint_pkl w; calls := calls w |}.

Definition set_grad (g : Grad) (w : World) : World :=
  {| state_dict := state_dict w; training := training w;
     grad_enabled := grad_enabled w; grad := g;
     optimizer := optimizer w; best := best w;
     checkpoint_pkl := checkpoint_pkl w; calls := calls w |}.

Definition set_optimizer (o : OptState) (w : World) : World :=
  {| state_dict := state_dict w; training := training w;
     grad_enabled := grad_enabled w; grad := grad w;
     optimizer := o; best := best w;
     checkpoint_pkl := checkpoint_pkl w; calls := calls w |}.

Definition set_state_dict (p : Params) (w : World) : World :=
  {| state_dict := p; training := training w;
     grad_enabled := grad_enabled w; grad := grad w;
     optimizer := optimizer w; best := best w;
     checkpoint_pkl := checkpoint_pkl w; calls := calls w |}.

Definition set_best (b : float) (w : World) : World :=
  {| state_dict := state_dict w; training := training w;
     grad_enabled := grad_enabled w; grad := grad w;
     optimizer := optimizer w; best := b;
     checkpoint_pkl := checkpoint_pkl w; calls := calls w |}.

Definition set_checkpoint_pkl (f : option Params) (w : World) : World :=
  {| state_dict := state_dict w; training := training w;
     grad_enabled := grad_enabled w; grad := grad w;
     optimizer := optimizer w; best := best w;
     checkpoint_pkl := f; calls := calls w |}.

(** [for x in xs: body], threading the variables [s] the body assigns. *)
Fixpoint for_each {A S : Type} (xs : list A) (body : A -> S -> M S) (s : S)
  : M S :=
  match xs with
  | [] => ret s
  | x :: xs' => s' <- body x s ;; for_each xs' body s'
  end.

(** [enumerate(xs)] *)
Definition enumerate {A : Type} (xs : list A) : list (nat * A) :=
  combine (seq 0 (length xs)) xs.

(** [range(n)] *)
Definition range (n : nat) : list nat := seq 0 n.

(** [x / y] on floats. *)
Definition truediv (x y : float) : M float :=
  if PyFloat.is_zero y then raise ZeroDivisionError
  else ret (PyFloat.div x y).

(** ** Calls on the torch objects *)

(** [model.train()] *)
Definition model_train : M unit :=
  update (fun w => set_training true (log EvModelTrain w)).

(** [model.eval()] *)
Definition model_eval : M unit :=
  update (fun w => set_training false (log EvModelEval w)).

(** [model(batched_graph, feats, reaction)] followed by [.view(-1)] *)
Definition model_forward (g : Graph) (feats : Feats) (r : Reaction)
  : M Tensor :=
  fun w =>
    (log EvModelCall w, Ok (model_call (training w) (state_dict w) g feats r)).

(** A call of the loss function passed to [train]. *)
Definition call_loss_fn (loss_fn : Tensor -> Tensor -> Tensor)
  (pred target : Tensor) : M Tensor :=
  fun w => (log EvLossFn w, Ok (loss_fn pred target)).

(** A call of the metric function passed to [train] or [evaluate]. *)
Definition call_metric_fn (metric_fn : Tensor -> Tensor -> Tensor -> Tensor)
  (pred target stdev : Tensor) : M Tensor :=
  fun w => (log EvMetricFn w, Ok (metric_fn pred target stdev)).

(** [optimizer.zero_grad()] *)
Definition optimizer_zero_grad : M unit :=
  update (fun w => set_grad grad_zero (log EvZeroGrad w)).

(** [loss.backward()] *)
Definition backward (loss : Tensor) : M unit :=
  update (fun w => set_grad (grad_add (grad w) (grad_of loss)) (log EvBackward w)).

(** [optimizer.step()] *)
Definition optimizer_step : M unit :=
  update (fun w =>
    let op := opt_step (optimizer w) (grad w) (state_dict w) in
    set_state_dict (snd op) (set_optimizer (fst op) (log EvStep w))).

(** [with torch.no_grad(): body]; the previous setting is restored on the
    way out, also when the body raises. *)
Definition with_no_grad {A : Type} (body : M A) : M A :=
  fun w =>
    let before := grad_enabled w in
    let '(w', r) := body (set_grad_enabled false (log EvNoGradEnter w)) in
    (set_grad_enabled before (log EvNoGradExit w'), r).

(** [torch.save(model.state_dict(), 'checkpoint.pkl')] *)
Definition torch_save : M unit :=
  update (fun w =>
    set_checkpoint_pkl (Some (state_dict w)) (log (EvSave (state_dict w)) w)).

(** [torch.load("checkpoint.pkl")] *)
Definition torch_load : M Params :=
  fun w =>
    match checkpoint_pkl w with
    | Some p => (log EvLoad w, Ok p)
    | None => (log EvLoad w, Raise FileNotFoundError)
    end.

(** [model.load_state_dict(checkpoint)] *)
Definition model_load_state_dict (checkpoint : Params) : M unit :=
  update (fun w => set_state_dict checkpoint (log EvLoadStateDict w)).

(** [print(...)] *)
Definition print (l : Line) : M unit := update (log (EvPrint l)).

(** ** Cell 5: [train] *)

(** The local variables of [train] that the loop assigns.  [it] is bound by
    the [for] statement only: it has no value until the first iteration. *)
Record TrainLocals : Type := {
  it : option nat;
  epoch_loss : float;
  accuracy : float;
  count : float
}.

(** Reading the local [it]. *)
Definition read_it (l : TrainLocals) : M nat :=
  match it l with
  | Some i => ret i
  | None => raise UnboundLocalError
  end.

(** The body of the loop of [train], lines 199-213. *)
Definition train_body (nodes : list string)
  (loss_fn : Tensor -> Tensor -> Tensor)
  (metric_fn : Tensor -> Tensor -> Tensor -> Tensor)
  (x : nat * Batch) (l : TrainLocals) : M TrainLocals :=
  let '(i, (batched_graph, label)) := x in
  let feats := node_feats nodes batched_graph in
  let target := value label in
  let stdev := scaler_stdev label in
  pred <- model_forward batched_graph feats (reaction label) ;;
  loss <- call_loss_fn loss_fn pred target ;;
  optimizer_zero_grad ;;
  backward loss ;;
  optimizer_step ;;
  let epoch_loss' := PyFloat.add (epoch_loss l) (item loss) in
  m <- call_metric_fn metric_fn pred target stdev ;;
  let accuracy' := PyFloat.add (accuracy l) (item m) in
  let count' := PyFloat.add (count l) (PyFloat.of_int (Z.of_nat (len target))) in
  ret {| it := Some i; epoch_loss := epoch_loss';
         accuracy := accuracy'; count := count' |}.

(** [train(optimizer, model, nodes, data_loader, loss_fn, metric_fn)]; the
    optimizer and the model are in the world, and [data_loader] is the
    sequence of batches the loader yields in this pass. *)
Definition train (nodes : list string) (data_loader : list Batch)
  (loss_fn : Tensor -> Tensor -> Tensor)
  (metric_fn : Tensor -> Tensor -> Tensor -> Tensor) : M (float * float) :=
  model_train ;;
  l <- for_each (enumerate data_loader) (train_body nodes loss_fn metric_fn)
         {| it := None; epoch_loss := PyFloat.zero;
            accuracy := PyFloat.zero; count := PyFloat.zero |} ;;
  i <- read_it l ;;
  epoch_loss' <- truediv (epoch_loss l) (PyFloat.of_int (Z.of_nat i + 1)) ;;
  accuracy' <- truediv (accuracy l) (count l) ;;
  ret (epoch_loss', accuracy').

(** ** Cell 6: [evaluate] *)

(** The body of the loop of [evaluate], lines 242-250; the variables are
    [(accuracy, count)]. *)
Definition evaluate_body (nodes : list string)
  (metric_fn : Tensor -> Tensor -> Tensor -> Tensor)
  (x : Batch) (l : float * float) : M (float * float) :=
  let '(batched_graph, label) := x in
  let '(accuracy, count) := l in
  let feats := node_feats nodes batched_graph in
  let target := value label in
  let stdev := scaler_stdev label in
  pred <- model_forward batched_graph feats (reaction label) ;;
  m <- call_metric_fn metric_fn pred target stdev ;;
  ret (PyFloat.add accuracy (item m),
       PyFloat.add count (PyFloat.of_int (Z.of_nat (len target)))).

(** [evaluate(model, nodes, data_loader, metric_fn)] *)
Definition evaluate (nodes : list string) (data_loader : list Batch)
  (metric_fn : Tensor -> Tensor -> Tensor -> Tensor) : M float :=
  model_eval ;;
  l <- with_no_grad
         (for_each data_loader (evaluate_body nodes metric_fn)
            (PyFloat.zero, PyFloat.zero)) ;;
  truediv (fst l) (snd l).

(** ** Cell 7: the main training loop *)

(** [feature_names = ["atom", "bond", "global"]] *)
Definition feature_names : list string :=
  ["atom"%string; "bond"%string; "global"%string].

(** [1e10], which is an integer below [2^53] and so a float. *)
Definition best_init : float := PyFloat.of_int 10000000000.

(** Lines 319-322: the checkpoint of the best performing model. *)
Definition maybe_save (val_acc : float) : M unit :=
  b <- gets best ;;
  let is_best := PyFloat.ltb val_acc b in
  if is_best then
    update (set_best val_acc) ;;
    torch_save
  else ret tt.

(** The loaders of cell 3.  [train_loader] shuffles, so each pass over it
    yields its own sequence of batches: [train_loader epoch] is the one of
    the pass made in [epoch]. *)
Record Loaders : Type := {
  train_loader : nat -> list Batch;
  val_loader : list Batch;
  test_loader : list Batch
}.

(** The body of the main loop, lines 313-324. *)
Definition epoch_body (d : Loaders) (epoch : nat) (_ : unit) : M unit :=
  r <- train feature_names (train_loader d epoch) MSELoss WeightedL1Loss ;;
  let '(loss, train_acc) := r in
  val_acc <- evaluate feature_names (val_loader d) WeightedL1Loss ;;
  maybe_save val_acc ;;
  print (LProgress epoch loss train_acc val_acc).

(** Lines 299-324: set-up and the loop over the epochs. *)
Definition training_phase (d : Loaders) (num_epochs : nat) : M unit :=
  p <- gets state_dict ;;
  update (set_optimizer (Adam p)) ;;
  update (set_best best_init) ;;
  print LHeader ;;
  for_each (range num_epochs) (epoch_body d) tt.

(** Lines 327-332: the test of the best performing model. *)
Definition testing_phase (d : Loaders) : M unit :=
  checkpoint <- torch_load ;;
  model_load_state_dict checkpoint ;;
  test_acc <- evaluate feature_names (test_loader d) WeightedL1Loss ;;
  print (LTestAcc test_acc).

(** Cell 7, for a given number of epochs. *)
Definition main (d : Loaders) (num_epochs : nat) : M unit :=
  training_phase d num_epochs ;;
  testing_phase d.

(** The notebook as written: [num_epochs = 20]. *)
Definition notebook (d : Loaders) : M unit := main d 20.

(** ** What the loops compute

    The functions and relations below describe the effect of the code
    above in closed form; the theorems relate the two. *)

(** A batch with at least one example. *)
Definition has_example (b : Batch) : Prop := len (value (snd b)) <> 0%nat.

(** The world after further calls. *)
Definition add_calls (cs : list Call) (w : World) : World :=
  {| state_dict := state_dict w; training := training w;
     grad_enabled := grad_enabled w; grad := grad w;
     optimizer := optimizer w; best := best w;
     checkpoint_pkl := checkpoint_pkl w; calls := calls w ++ cs |}.

(** The prediction of the model on a batch, in a given mode and with given
    parameters. *)
Definition predict (nodes : list string) (mode : bool) (p : Params)
  (b : Batch) : Tensor :=
  model_call mode p (fst b) (node_feats nodes (fst b)) (reaction (snd b)).

(** The loss of a batch in a world, as a tensor. *)
Definition batch_loss (nodes : list string)
  (loss_fn : Tensor -> Tensor -> Tensor) (w : World) (b : Batch) : Tensor :=
  loss_fn (predict nodes (training w) (state_dict w) b) (value (snd b)).

(** The metric of a batch: [metric_fn(pred, target, stdev)]. *)
Definition batch_metric (nodes : list string)
  (metric_fn : Tensor -> Tensor -> Tensor -> Tensor) (mode : bool)
  (p : Params) (b : Batch) : Tensor :=
  metric_fn (predict nodes mode p b) (value (snd b)) (scaler_stdev (snd b)).

(** The world after [model.train()]. *)
Definition in_training (w : World) : World :=
  set_training true (log EvModelTrain w).

(** The index bound by the loop after [n] iterations from index [k]. *)
Definition last_it (k n : nat) (before : option nat) : option nat :=
  match n with
  | O => before
  | S n' => Some (k + n')%nat
  end.

(** The calls of one iteration of the loop of [train], in order. *)
Definition train_batch_calls : list Call :=
  [EvModelCall; EvLossFn; EvZeroGrad; EvBackward; EvStep; EvMetricFn].

(** The world after one iteration of the loop of [train]: the gradient
    buffers are cleared, then receive the gradient of the loss of this
    batch, and the optimizer steps on them. *)
Definition after_batch (nodes : list string)
  (loss_fn : Tensor -> Tensor -> Tensor) (b : Batch) (w : World) : World :=
  let g := grad_add grad_zero (grad_of (batch_loss nodes loss_fn w b)) in
  let op := opt_step (optimizer w) g (state_dict w) in
  {| state_dict := snd op; training := training w;
     grad_enabled := grad_enabled w; grad := g;
     optimizer := fst op; best := best w;
     checkpoint_pkl := checkpoint_pkl w;
     calls := calls w ++ train_batch_calls |}.

(** The world after the iterations over [bs]. *)
Definition after_pass (nodes : list string)
  (loss_fn : Tensor -> Tensor -> Tensor) (bs : list Batch) (w : World)
  : World :=
  fold_left (fun w b => after_batch nodes loss_fn b w) bs w.

(** The per-batch losses of a pass: each batch is scored with the parameters
    left by the steps on the batches before it. *)
Fixpoint pass_losses (nodes : list string)
  (loss_fn : Tensor -> Tensor -> Tensor) (w : World) (bs : list Batch)
  : list float :=
  match bs with
  | [] => []
  | b :: bs' =>
      item (batch_loss nodes loss_fn w b)
        :: pass_losses nodes loss_fn (after_batch nodes loss_fn b w) bs'
  end.

(** The per-batch metrics of a training pass. *)
Fixpoint pass_metrics (nodes : list string)
  (loss_fn : Tensor -> Tensor -> Tensor)
  (metric_fn : Tensor -> Tensor -> Tensor -> Tensor)
  (w : World) (bs : list Batch) : list float :=
  match bs with
  | [] => []
  | b :: bs' =>
      item (batch_metric nodes metric_fn (training w) (state_dict w) b)
        :: pass_metrics nodes loss_fn metric_fn
             (after_batch nodes loss_fn b w) bs'
  end.

(** The number of examples of the batches, accumulated as [count] is:
    in floats, from [acc]. *)
Definition count_from (acc : float) (bs : list Batch) : float :=
  fold_left
    (fun c b => PyFloat.add c (PyFloat.of_int (Z.of_nat (len (value (snd b))))))
    bs acc.

Definition examples_seen (bs : list Batch) : float :=
  count_from PyFloat.zero bs.

(** The number of examples of the batches. *)
Definition total_examples (bs : list Batch) : nat :=
  list_sum (map (fun b => len (value (snd b))) bs).

(** What [train] returns on a pass with examples: the mean loss per batch
    and the mean metric per example. *)
Definition train_value (nodes : list string)
  (loss_fn : Tensor -> Tensor -> Tensor)
  (metric_fn : Tensor -> Tensor -> Tensor -> Tensor)
  (bs : list Batch) (w : World) : float * float :=
  (PyFloat.div
     (PyFloat.sum_from PyFloat.zero
        (pass_losses nodes loss_fn (in_training w) bs))
     (PyFloat.of_int (Z.of_nat (List.length bs))),
   PyFloat.div
     (PyFloat.sum_from PyFloat.zero
        (pass_metrics nodes loss_fn metric_fn (in_training w) bs))
     (examples_seen bs)).

(** The per-batch metrics of an evaluation pass. *)
Definition eval_metrics (nodes : list string)
  (metric_fn : Tensor -> Tensor -> Tensor -> Tensor) (p : Params)
  (bs : list Batch) : list float :=
  map (fun b => item (batch_metric nodes metric_fn false p b)) bs.

(** The calls of an evaluation pass over [bs]. *)
Definition evaluate_calls (bs : list Batch) : list Call :=
  EvModelEval :: EvNoGradEnter
    :: flat_map (fun _ : Batch => [EvModelCall; EvMetricFn]) bs
    ++ [EvNoGradExit].

(** The world after an evaluation pass: the model is in evaluation mode and
    the calls are recorded; nothing else changes. *)
Definition after_evaluate (bs : list Batch) (w : World) : World :=
  {| state_dict := state_dict w; training := false;
     grad_enabled := grad_enabled w; grad := grad w;
     optimizer := optimizer w; best := best w;
     checkpoint_pkl := checkpoint_pkl w;
     calls := calls w ++ evaluate_calls bs |}.

(** The mean metric per example of an evaluation pass. *)
Definition accuracy_value (nodes : list string)
  (metric_fn : Tensor -> Tensor -> Tensor -> Tensor) (p : Params)
  (bs : list Batch) : float :=
  PyFloat.div
    (PyFloat.sum_from PyFloat.zero (eval_metrics nodes metric_fn p bs))
    (examples_seen bs).

(** The outcome of an evaluation pass. *)
Definition evaluate_value (nodes : list string)
  (metric_fn : Tensor -> Tensor -> Tensor -> Tensor) (p : Params)
  (bs : list Batch) : result float :=
  if PyFloat.is_zero (examples_seen bs) then Raise ZeroDivisionError
  else Ok (accuracy_value nodes metric_fn p bs).

(** *** The checkpoint *)

(** The world after a checkpoint with metric [v] is saved. *)
Definition after_save (v : float) (w : World) : World :=
  {| state_dict := state_dict w; training := training w;
     grad_enabled := grad_enabled w; grad := grad w;
     optimizer := optimizer w; best := v;
     checkpoint_pkl := Some (state_dict w);
     calls := calls w ++ [EvSave (state_dict w)] |}.

(** The checkpoint block run on a sequence of metrics. *)
Definition maybe_save_all (vs : list float) : M unit :=
  for_each vs (fun v _ => maybe_save v) tt.

(** The least metric so far, by strict comparison, from [b]. *)
Definition running_best (b : float) (vs : list float) : float :=
  fold_left (fun b v => if PyFloat.ltb v b then v else b) vs b.

(** How many metrics of [vs] are strictly below the best before them. *)
Fixpoint improvements (b : float) (vs : list float) : nat :=
  match vs with
  | [] => 0%nat
  | v :: vs' =>
      if PyFloat.ltb v b then S (improvements v vs') else improvements b vs'
  end.

Definition is_save (c : Call) : bool :=
  match c with
  | EvSave _ => true
  | _ => false
  end.

(** The number of [torch.save] among calls. *)
Definition saves (cs : list Call) : nat := List.length (filter is_save cs).

(** *** The order of the parameter update *)

Definition is_update_call (c : Call) : bool :=
  match c with
  | EvLossFn | EvZeroGrad | EvBackward | EvStep => true
  | _ => false
  end.

(** The calls that make up the parameter update, in the order made. *)
Definition update_calls (cs : list Call) : list Call :=
  filter is_update_call cs.

(** The order in which the specification lists them: loss, gradients, step,
    then reset. *)
Definition update_order_as_specified : list Call :=
  [EvLossFn; EvBackward; EvStep; EvZeroGrad].

(** *** The driver, step by step *)

(** The world after lines 299-309. *)
Definition after_setup (w : World) : World :=
  {| state_dict := state_dict w; training := training w;
     grad_enabled := grad_enabled w; grad := grad w;
     optimizer := Adam (state_dict w); best := best_init;
     checkpoint_pkl := checkpoint_pkl w;
     calls := calls w ++ [EvPrint LHeader] |}.

(** One epoch, from [w] to [w']: a training pass, an evaluation pass on the
    validation set, the checkpoint block, and the progress line [l]. *)
Inductive epoch_run (d : Loaders) (epoch : nat) (w w' : World) (l : Line)
  : Prop :=
| epoch_run_intro (loss train_acc val_acc : float) (w1 w2 w3 : World) :
    train feature_names (train_loader d epoch) MSELoss WeightedL1Loss w
      = (w1, Ok (loss, train_acc)) ->
    evaluate feature_names (val_loader d) WeightedL1Loss w1
      = (w2, Ok val_acc) ->
    maybe_save val_acc w2 = (w3, Ok tt) ->
    l = LProgress epoch loss train_acc val_acc ->
    print l w3 = (w', Ok tt) ->
    epoch_run d epoch w w' l.

(** [n] epochs in a row, the first numbered [epoch], with the progress lines
    they print. *)
Inductive epochs_run (d : Loaders)
  : nat -> nat -> World -> World -> list Line -> Prop :=
| epochs_run_done (epoch : nat) (w : World) : epochs_run d epoch 0 w w []
| epochs_run_next (epoch n : nat) (w w1 w2 : World) (l : Line)
    (ls : list Line) :
    epoch_run d epoch w w1 l ->
    epochs_run d (S epoch) n w1 w2 ls ->
    epochs_run d epoch (S n) w w2 (l :: ls).

(** The world after an epoch whose passes have examples, and the line it
    prints. *)
Definition after_epoch (d : Loaders) (epoch : nat) (w : World)
  : World * Line :=
  let w1 :=
    after_pass feature_names MSELoss (train_loader d epoch) (in_training w) in
  let r :=
    train_value feature_names MSELoss WeightedL1Loss (train_loader d epoch) w in
  let w2 := after_evaluate (val_loader d) w1 in
  let val_acc :=
    accuracy_value feature_names WeightedL1Loss (state_dict w1) (val_loader d) in
  let l := LProgress epoch (fst r) (snd r) val_acc in
  (log (EvPrint l)
     (if PyFloat.ltb val_acc (best w2) then after_save val_acc w2 else w2),
   l).

(** The world after [n] such epochs, the first numbered [epoch], and the
    lines they print. *)
Fixpoint after_epochs (d : Loaders) (epoch n : nat) (w : World)
  : World * list Line :=
  match n with
  | O => (w, [])
  | S n' =>
      let wl := after_epoch d epoch w in
      let wls := after_epochs d (S epoch) n' (fst wl) in
      (fst wls, snd wl :: snd wls)
  end.

(** The epoch a progress line reports, and its validation metric. *)
Definition line_epoch (l : Line) : option nat :=
  match l with
  | LProgress epoch _ _ _ => Some epoch
  | _ => None
  end.

Definition line_val_acc (l : Line) : option float :=
  match l with
  | LProgress _ _ _ val_acc => Some val_acc
  | _ => None
  end.

(** The validation metric of every line is at least [b]. *)
Definition all_at_least (b : float) (ls : list Line) : bool :=
  forallb
    (fun l =>
       match line_val_acc l with
       | Some v => PyFloat.leb b v
       | None => true
       end) ls.

End Notebook.

Notation "x <- m ;; k" := (bind m (fun x => k))
  (at level 61, m at next level, right associativity).
Notation "m ;; k" := (bind m (fun _ => k))
  (at level 61, right associativity).

(** ** Further descriptions of a run *)

Section RunDefinitions.

Context {T : Torch}.

(** A batch without examples. *)
Definition no_example (b : Batch) : Prop := len (value (snd b)) = 0%nat.

(** Some batch has an example. *)
Definition any_example (bs : list Batch) : bool :=
  existsb (fun b => negb (Nat.eqb (len (value (snd b))) 0)) bs.

Definition is_step (c : Call) : bool :=
  match c with
  | EvStep => true
  | _ => false
  end.

(** The number of [optimizer.step()] among calls. *)
Definition steps (cs : list Call) : nat := List.length (filter is_step cs).

(** The lines printed by calls, in order. *)
Definition printed (cs : list Call) : list Line :=
  flat_map (fun c => match c with EvPrint l => [l] | _ => [] end) cs.

(** The validation metrics of progress lines, in order. *)
Definition val_accs (ls : list Line) : list float :=
  flat_map
    (fun l => match line_val_acc l with Some v => [v] | None => [] end) ls.

(** The number of batches of the training passes of epochs
    [epoch .. epoch + n - 1]. *)
Definition batches_trained (d : Loaders) (epoch n : nat) : nat :=
  list_sum (map (fun k => List.length (train_loader d k)) (seq epoch n)).

(** Two worlds with the same parameters, optimizer state and mode. *)
Definition same_model (w w' : World) : Prop :=
  state_dict w = state_dict w' /\ optimizer w = optimizer w'
  /\ training w = training w'.

(** No line has a validation metric strictly below [b].  A metric that is
    not a number is below nothing, so it passes. *)
Definition none_below (b : float) (ls : list Line) : bool :=
  forallb
    (fun l =>
       match line_val_acc l with
       | Some v => negb (PyFloat.ltb v b)
       | None => true
       end) ls.

(** The validation metric of every line is finite. *)
Definition all_finite (ls : list Line) : bool :=
  forallb
    (fun l =>
       match line_val_acc l with
       | Some v => PyFloat.is_finite v
       | None => true
       end) ls.

(** The calls of the epoch numbered [epoch] run from [w], in the order
    made: [model.train()] and the calls of the training pass, the calls of
    the evaluation pass on the validation set, [torch.save] when the
    validation metric is below [best], and the progress line. *)
Definition epoch_calls (d : Loaders) (epoch : nat) (w : World) : list Call :=
  let w1 :=
    after_pass feature_names MSELoss (train_loader d epoch) (in_training w) in
  let val_acc :=
    accuracy_value feature_names WeightedL1Loss (state_dict w1) (val_loader d) in
  (EvModelTrain :: flat_map (fun _ => train_batch_calls) (train_loader d epoch))
    ++ evaluate_calls (val_loader d)
    ++ (if PyFloat.ltb val_acc (best w) then [EvSave (state_dict w1)] else [])
    ++ [EvPrint (snd (after_epoch d epoch w))].

(** The calls of the test of the checkpoint, in the order made. *)
Definition test_calls (d : Loaders) (checkpoint : Params) : list Call :=
  [EvLoad; EvLoadStateDict]
    ++ evaluate_calls (test_loader d)
    ++ [EvPrint (LTestAcc (accuracy_value feature_names WeightedL1Loss
                             checkpoint (test_loader d)))].

(** [v] is strictly below [b] and strictly below each of the metrics
    [earlier] that is a number. *)
Definition improves (b : float) (earlier : list float) (v : float) : bool :=
  PyFloat.ltb v b
  && forallb (fun u => PyFloat.is_nan u || PyFloat.ltb v u) earlier.

(** Of the epochs [epoch, epoch + 1, ...] with the validation metrics [vs],
    those whose metric improves on [b] and on the metrics before it, the
    metrics [earlier] included. *)
Fixpoint improving_epochs (b : float) (earlier : list float) (epoch : nat)
  (vs : list float) : list nat :=
  match vs with
  | [] => []
  | v :: vs' =>
      (if improves b earlier v then [epoch] else [])
        ++ improving_epochs b (earlier ++ [v]) (S epoch) vs'
  end.

(** The epochs in which [torch.save] was called, read off the calls: an
    epoch is listed when a save precedes its progress line and follows the
    progress line before it.  [saved] tells whether a save was seen since
    the last progress line. *)
Fixpoint save_epochs (saved : bool) (cs : list Call) : list nat :=
  match cs with
  | [] => []
  | EvSave _ :: cs' => save_epochs true cs'
  | EvPrint (LProgress epoch _ _ _) :: cs' =>
      (if saved then [epoch] else []) ++ save_epochs false cs'
  | _ :: cs' => save_epochs saved cs'
  end.

End RunDefinitions.

(** ** A small instance

    A one-weight linear model on lists of floats, used to run the notebook
    on concrete inputs. *)

Module Toy.

Definition mul (x y : float) : float := SFmul PyFloat.prec PyFloat.emax x y.
Definition sub (x y : float) : float := SFsub PyFloat.prec PyFloat.emax x y.

(** Pairs of corresponding elements, as broadcasting pairs them. *)
Definition zip3 (xs ys zs : list float) : list (float * float * float) :=
  combine (combine xs ys) zs.

(** The mean of the squared errors. *)
Definition mse (pred target : list float) : list float :=
  [PyFloat.div
     (PyFloat.sum_from PyFloat.zero
        (map (fun pt => mul (sub (fst pt) (snd pt)) (sub (fst pt) (snd pt)))
           (combine pred target)))
     (PyFloat.of_int (Z.of_nat (List.length pred)))].

(** The sum of the absolute errors, each scaled by its deviation. *)
Definition weighted_l1 (pred target stdev : list float) : list float :=
  [PyFloat.sum_from PyFloat.zero
     (map (fun x => mul (SFabs (sub (fst (fst x)) (snd (fst x)))) (snd x))
        (zip3 pred target stdev))].

Definition toy : Torch :=
  {| Params := Z;
     Grad := Z;
     OptState := nat;
     Graph := list float;
     Feats := list float;
     Reaction := unit;
     Tensor := list float;
     item := fun t => hd PyFloat.nan t;
     len := fun t => List.length t;
     node_feats := fun _ g => g;
     model_call := fun _ p _ feats _ => map (mul (PyFloat.of_int p)) feats;
     grad_zero := 0;
     grad_of := fun _ => 1;
     grad_add := Z.add;
     opt_step := fun o g p => (S o, p - g);
     Adam := fun _ => 0%nat;
     MSELoss := mse;
     WeightedL1Loss := weighted_l1 |}.

(** The loss and metric functions, as functions on the tensors of [toy]. *)
Definition loss_fn : @Tensor toy -> @Tensor toy -> @Tensor toy := mse.
Definition metric_fn
  : @Tensor toy -> @Tensor toy -> @Tensor toy -> @Tensor toy := weighted_l1.

Definition f (n : Z) : float := PyFloat.of_int n.

(** A batch from the features, targets and deviations of its examples. *)
Definition batch (feats target stdev : list float) : @Batch toy :=
  (feats, @Build_Label toy target stdev tt).

(** Two examples with features 1 and 2, targets 3 and 5. *)
Definition batch1 : @Batch toy := batch [f 1; f 2] [f 3; f 5] [f 2; f 2].

(** One example whose target is far from any prediction. *)
Definition batch_far : @Batch toy := batch [f 1] [f 100000000000] [f 1].

(** One example whose target is not a number. *)
Definition batch_nan : @Batch toy := batch [f 1] [PyFloat.nan] [f 1].

(** A batch without examples. *)
Definition batch_empty : @Batch toy := batch [] [] [].

(** A world with stale gradients and no checkpoint file. *)
Definition world0 : @World toy :=
  @Build_World toy 1 false true 7 0%nat PyFloat.zero None [].

Definition loaders : @Loaders toy :=
  @Build_Loaders toy (fun _ => [batch1; batch1]) [batch1] [batch1].

Definition loaders_far : @Loaders toy :=
  @Build_Loaders toy (fun _ => [batch1]) [batch_far] [batch1].

Definition loaders_nan : @Loaders toy :=
  @Build_Loaders toy (fun _ => [batch1]) [batch_nan] [batch1].

End Toy.

(** Further inputs. *)

Module ToyRuns.
Import Toy.

(** A world that differs from [world0] in all but the parameters and the
    optimizer. *)
Definition world1 : @World toy :=
  @Build_World toy 1 true false 99 0%nat (f 3) (Some 5) [EvModelEval].

(** A world with a checkpoint file left by an earlier run. *)
Definition world_stale : @World toy :=
  @Build_World toy 1 false true 7 0%nat PyFloat.zero (Some 5) [].

(** Loaders with a batch whose target is not a number. *)
Definition loaders_nan_batch : @Loaders toy :=
  @Build_Loaders toy (fun _ => [batch1]) [batch1; batch_nan] [batch1].

(** The training passes of [loaders], with another validation set and
    another test set. *)
Definition loaders_nan_far : @Loaders toy :=
  @Build_Loaders toy (fun _ => [batch1; batch1]) [batch_nan] [batch_far].

End ToyRuns.

(** * Facts

    ** Floats: comparison, and the sign of sums of counts *)

Module PyFloatFacts.
Import PyFloat.

Lemma ltb_nan_l (y : float) : ltb nan y = false.
Proof. destruct y; reflexivity. Qed.

Lemma ltb_nan_r (x : float) : ltb x nan = false.
Proof. destruct x; reflexivity. Qed.

Lemma SFcompare_swap (x y : float) :
  SFcompare y x = option_map CompOpp (SFcompare x y).
Proof.
  destruct x as [sx|sx| |sx mx ex], y as [sy|sy| |sy my ey]; simpl;
    try reflexivity;
    try (destruct sx; reflexivity); try (destruct sy; reflexivity);
    try (destruct sx, sy; reflexivity).
  destruct sx, sy; simpl; try reflexivity;
    rewrite (Z.compare_antisym ey ex);
    destruct (ey ?= ex); simpl; try reflexivity;
    rewrite (Pos.compare_cont_antisym mx my Eq); simpl;
    try rewrite CompOpp_involutive; reflexivity.
Qed.

Lemma leb_not_ltb (x y : float) : leb x y = true -> ltb y x = false.
Proof.
  unfold leb, ltb, SFleb, SFltb. rewrite (SFcompare_swap x y).
  destruct (SFcompare x y) as [[ | | ]|]; simpl; congruence.
Qed.

(** Shifting a non-negative mantissa right removes one binary digit. *)
Lemma shr_1_digits mrs :
  0 <= shr_m mrs ->
  0 <= shr_m (shr_1 mrs) /\
  Zdigits2 (shr_m (shr_1 mrs)) = Z.max 0 (Zdigits2 (shr_m mrs) - 1).
Proof.
  destruct mrs as [m r s].
  destruct m as [|[p|p|]|p]; cbn [shr_1 shr_m digits2_pos Zdigits2]; lia.
Qed.

Lemma iter_shr_1_digits p : forall mrs,
  0 <= shr_m mrs ->
  0 <= shr_m (iter_pos shr_1 p mrs) /\
  Zdigits2 (shr_m (iter_pos shr_1 p mrs))
    = Z.max 0 (Zdigits2 (shr_m mrs) - Zpos p).
Proof.
  induction p as [p IH|p IH|]; intros mrs H; simpl.
  - destruct (shr_1_digits mrs H) as [H1 E1].
    destruct (IH _ H1) as [H2 E2]. destruct (IH _ H2) as [H3 E3].
    split; [exact H3|]. rewrite E3, E2, E1. lia.
  - destruct (IH _ H) as [H2 E2]. destruct (IH _ H2) as [H3 E3].
    split; [exact H3|]. rewrite E3, E2. lia.
  - destruct (shr_1_digits mrs H) as [H1 E1]. split; [exact H1|].
    rewrite E1. lia.
Qed.

Lemma digits_pos_iff m : 0 <= m -> (0 < Zdigits2 m <-> 0 < m).
Proof. destruct m; simpl; lia. Qed.

Lemma shr_record_of_loc_m m l : shr_m (shr_record_of_loc m l) = m.
Proof. destruct l as [|[ | | ]]; reflexivity. Qed.

Lemma shr_fexp_pos m e l :
  0 < m -> emin prec emax <= e ->
  0 < shr_m (fst (shr_fexp prec emax m e l)) /\
  emin prec emax <= snd (shr_fexp prec emax m e l).
Proof.
  intros Hm He. unfold shr_fexp, shr.
  remember (fexp prec emax (Zdigits2 m + e) - e) as n eqn:En.
  assert (Hd : 0 < Zdigits2 m) by (apply digits_pos_iff; lia).
  destruct n as [|p|p]; simpl; rewrite ?shr_record_of_loc_m; try (split; lia).
  assert (H0 : 0 <= shr_m (shr_record_of_loc m l))
    by (rewrite shr_record_of_loc_m; lia).
  destruct (iter_shr_1_digits p _ H0) as [H1 E1].
  rewrite shr_record_of_loc_m in E1.
  unfold fexp, emin, prec, emax in *.
  split; [|lia].
  apply digits_pos_iff; [exact H1|]. rewrite E1. lia.
Qed.

Lemma round_nearest_even_pos m l : 0 < m -> 0 < round_nearest_even m l.
Proof.
  intros H. destruct l as [|[ | | ]]; simpl; try lia.
  destruct (Z.even m); lia.
Qed.

Lemma binary_round_aux_positive m e l :
  0 < m -> emin prec emax <= e ->
  is_positive (binary_round_aux prec emax false m e l) = true.
Proof.
  intros Hm He. unfold binary_round_aux.
  pose proof (shr_fexp_pos m e l Hm He) as H1.
  destruct (shr_fexp prec emax m e l) as [mrs1 e1]. simpl in H1.
  destruct H1 as [Hm1 He1].
  pose proof (shr_fexp_pos _ e1 loc_Exact
                (round_nearest_even_pos _ (loc_of_shr_record mrs1) Hm1) He1)
    as H2.
  destruct (shr_fexp prec emax _ e1 loc_Exact) as [mrs2 e2]. simpl in H2.
  destruct H2 as [Hm2 He2].
  destruct (shr_m mrs2) as [|p|p]; try lia.
  destruct (e2 <=? emax - prec); simpl; [apply Z.leb_le; exact He2|reflexivity].
Qed.

Lemma binary_round_positive m e :
  emin prec emax <= e ->
  is_positive (binary_round prec emax false m e) = true.
Proof.
  intros He. unfold binary_round.
  destruct (shl_align m e (fexp prec emax (Z.pos (digits2_pos m) + e)))
    as [mz ez] eqn:E.
  apply binary_round_aux_positive; [lia|].
  unfold shl_align in E.
  destruct (fexp prec emax (Z.pos (digits2_pos m) + e) - e) eqn:D;
    inversion E; subst; try lia.
  unfold fexp. lia.
Qed.

Lemma of_int_positive n : 0 < n -> is_positive (of_int n) = true.
Proof.
  intros H. unfold of_int. destruct n as [|p|p]; try lia.
  apply binary_round_positive. unfold emin, prec, emax. lia.
Qed.

Lemma is_positive_not_zero x : is_positive x = true -> is_zero x = false.
Proof. destruct x as [s|s| |s m e]; simpl; congruence. Qed.

(** Adding a positive float to a float that is [+0.0] or positive. *)
Lemma add_positive x y :
  x = zero \/ is_positive x = true -> is_positive y = true ->
  is_positive (add x y) = true.
Proof.
  intros [->|Hx] Hy.
  - destruct y as [s|s| |s m e]; simpl in *; try discriminate; exact Hy.
  - destruct x as [sx|[|]| |[|] mx ex]; simpl in Hx; try discriminate;
      destruct y as [sy|[|]| |[|] my ey]; simpl in Hy; try discriminate;
      try reflexivity.
    unfold add, SFadd. cbn [cond_Zopp].
    apply Z.leb_le in Hx, Hy.
    apply (binary_round_positive _ (Z.min ex ey)). lia.
Qed.

Lemma add_zero_r x : is_positive x = true -> add x (of_int 0) = x.
Proof. destruct x as [s|[|]| |[|] m e]; simpl; try discriminate; reflexivity. Qed.

Lemma add_zero_zero : add zero (of_int 0) = zero.
Proof. reflexivity. Qed.

(** *** Sums of small integers are exact *)

(** The number of binary digits of a positive number. *)
Lemma digits2_pos_size p : digits2_pos p = Pos.size p.
Proof. induction p; cbn [digits2_pos Pos.size]; congruence. Qed.

Lemma digits2_log2 p : Zpos (digits2_pos p) = Z.log2 (Zpos p) + 1.
Proof.
  rewrite digits2_pos_size.
  destruct p; cbn [Pos.size Z.log2]; lia.
Qed.

Lemma digits2_mul_pow2 p q k :
  0 <= k -> Zpos q = Zpos p * 2 ^ k ->
  Zpos (digits2_pos q) = Zpos (digits2_pos p) + k.
Proof.
  intros Hk E. rewrite !digits2_log2, E.
  rewrite Z.log2_mul_pow2 by lia. lia.
Qed.

Lemma iter_xO p k : Zpos (Pos.iter xO p k) = Zpos p * 2 ^ Zpos k.
Proof.
  revert p. induction k as [|k IH] using Pos.peano_ind; intros p.
  - cbn [Pos.iter]. lia.
  - rewrite Pos.iter_succ, Pos2Z.inj_succ, Z.pow_succ_r by lia.
    rewrite Pos2Z.inj_xO, IH. lia.
Qed.

(** Shifting right by one a mantissa that ends in a zero bit is exact. *)
Lemma shr_1_exact m :
  0 < m -> shr_1 (Build_shr_record (m * 2) false false)
           = Build_shr_record m false false.
Proof.
  intros H. destruct m as [|p|p]; try lia.
  replace (Zpos p * 2) with (Zpos (xO p)) by lia. reflexivity.
Qed.

Lemma pow2_double k : 2 ^ (2 * k) = 2 ^ k * 2 ^ k.
Proof.
  destruct (Z.le_gt_cases 0 k) as [H|H].
  - replace (2 * k) with (k + k) by lia. apply Z.pow_add_r; lia.
  - rewrite !Z.pow_neg_r by lia. reflexivity.
Qed.

Lemma pow2_xO k : 2 ^ Zpos k~0 = 2 ^ Zpos k * 2 ^ Zpos k.
Proof. change (Zpos k~0) with (2 * Zpos k). apply pow2_double. Qed.

Lemma pow2_xI k : 2 ^ Zpos k~1 = 2 ^ Zpos k * 2 ^ Zpos k * 2.
Proof.
  change (Zpos k~1) with (2 * Zpos k + 1).
  rewrite Z.pow_add_r, pow2_double by lia. reflexivity.
Qed.

Lemma iter_shr_1_exact k : forall m,
  0 < m ->
  iter_pos shr_1 k (Build_shr_record (m * 2 ^ Zpos k) false false)
  = Build_shr_record m false false.
Proof.
  induction k as [k IH|k IH|]; intros m H; cbn [iter_pos].
  - assert (P : 0 < 2 ^ Zpos k) by (apply Z.pow_pos_nonneg; lia).
    replace (m * 2 ^ Zpos k~1) with (((m * 2 ^ Zpos k) * 2 ^ Zpos k) * 2)
      by (rewrite pow2_xI; ring).
    rewrite shr_1_exact, IH, IH; [reflexivity|nia..].
  - assert (P : 0 < 2 ^ Zpos k) by (apply Z.pow_pos_nonneg; lia).
    replace (m * 2 ^ Zpos k~0) with ((m * 2 ^ Zpos k) * 2 ^ Zpos k)
      by (rewrite pow2_xO; ring).
    rewrite IH, IH; [reflexivity|nia..].
  - change (2 ^ 1) with 2. apply shr_1_exact. exact H.
Qed.

(** Rounding a mantissa that is a 53-digit number shifted left by [k] bits,
    at an exponent in range, is exact. *)
Lemma binary_round_aux_exact (m1 M : positive) (e k : Z) :
  0 <= k -> Zpos M = Zpos m1 * 2 ^ k ->
  Zpos (digits2_pos m1) = prec ->
  emin prec emax <= e + k <= emax - prec ->
  binary_round_aux prec emax false (Zpos M) e loc_Exact
  = S754_finite false m1 (e + k).
Proof.
  intros Hk HM Hd He.
  assert (HdM : Zpos (digits2_pos M) = prec + k)
    by (rewrite (digits2_mul_pow2 m1 M k Hk HM); lia).
  assert (Hfinal : forall e', emin prec emax <= e' <= emax - prec ->
            (let '(mrs, e'') := shr_fexp prec emax (Zpos m1) e' loc_Exact in
             match shr_m mrs with
             | 0 => S754_zero false
             | Zpos m => if e'' <=? emax - prec then S754_finite false m e''
                         else S754_infinity false
             | Zneg _ => S754_nan
             end) = S754_finite false m1 e').
  { intros e' He'. unfold shr_fexp. cbn [Zdigits2]. rewrite Hd.
    replace (fexp prec emax (prec + e') - e') with 0 by (unfold fexp; lia).
    cbn [shr shr_record_of_loc shr_m].
    destruct (Z.leb_spec e' (emax - prec)); [reflexivity|lia]. }
  unfold binary_round_aux.
  unfold shr_fexp at 1. cbn [Zdigits2]. rewrite HdM.
  replace (fexp prec emax (prec + k + e) - e) with k by (unfold fexp; lia).
  destruct k as [|k|k]; try lia.
  - cbn [shr shr_record_of_loc shr_m loc_of_shr_record round_nearest_even].
    replace M with m1 by lia.
    rewrite Z.add_0_r. apply Hfinal. lia.
  - cbn [shr shr_record_of_loc]. rewrite HM.
    rewrite iter_shr_1_exact by lia.
    cbn [shr_m loc_of_shr_record round_nearest_even].
    apply Hfinal. lia.
Qed.

Lemma binary_round_exact (pn M : positive) (e : Z) :
  Zpos (digits2_pos pn) <= prec ->
  emin prec emax <= e <= 0 ->
  Zpos M = Zpos pn * 2 ^ (- e) ->
  binary_round prec emax false M e = canonical (Zpos pn).
Proof.
  intros HD He HM. unfold canonical. rewrite <- digits2_log2.
  set (D := Zpos (digits2_pos pn)) in *.
  assert (HD1 : 0 < D) by (unfold D; lia).
  set (m1 := Z.to_pos (Zpos pn * 2 ^ (prec - D))).
  assert (Hp : 0 < 2 ^ (prec - D)) by (apply Z.pow_pos_nonneg; lia).
  assert (Hm1 : Zpos m1 = Zpos pn * 2 ^ (prec - D))
    by (unfold m1; rewrite Z2Pos.id; nia).
  assert (Hd1 : Zpos (digits2_pos m1) = prec).
  { rewrite (digits2_mul_pow2 pn m1 (prec - D)); [fold D; lia|lia|exact Hm1]. }
  assert (HdM : Zpos (digits2_pos M) = D - e).
  { rewrite (digits2_mul_pow2 pn M (- e)); [fold D; lia|lia|exact HM]. }
  unfold binary_round. rewrite HdM.
  replace (fexp prec emax (D - e + e)) with (D - prec)
    by (unfold fexp, emin, prec, emax in *; lia).
  unfold shl_align.
  destruct (D - prec - e) as [|k|k] eqn:Ek.
  - rewrite (binary_round_aux_exact m1 M e 0); try lia.
    + f_equal. lia.
    + rewrite Hm1, HM. replace (- e) with (prec - D) by lia. lia.
    + unfold emin, prec, emax in *. lia.
  - rewrite (binary_round_aux_exact m1 M e (Zpos k)); try lia.
    + f_equal. lia.
    + rewrite Hm1, HM. replace (- e) with ((prec - D) + Zpos k) by lia.
      rewrite Z.pow_add_r by lia. ring.
    + unfold emin, prec, emax in *. lia.
  - rewrite (binary_round_aux_exact m1 (Pos.iter xO M k) (D - prec) 0);
      try lia.
    + f_equal. lia.
    + rewrite iter_xO, Hm1, HM.
      replace (prec - D) with (- e + Zpos k) by lia.
      rewrite Z.pow_add_r by lia. ring.
    + unfold emin, prec, emax in *. lia.
Qed.

Lemma digits_below_pow2 p : Zpos p < 2 ^ prec -> Zpos (digits2_pos p) <= prec.
Proof.
  intros H. rewrite digits2_log2.
  assert (Z.log2 (Zpos p) < prec) by (apply Z.log2_lt_pow2; lia). lia.
Qed.

Lemma of_int_canonical n :
  0 < n < 2 ^ prec -> of_int n = canonical n.
Proof.
  intros [H0 H1]. destruct n as [|p|p]; try lia.
  unfold of_int. cbn [binary_normalize].
  apply binary_round_exact.
  - apply digits_below_pow2. exact H1.
  - unfold emin, prec, emax. lia.
  - change (- 0) with 0. lia.
Qed.

Lemma shl_align_fst m e e' :
  e' <= e -> Zpos (fst (shl_align m e e')) = Zpos m * 2 ^ (e - e').
Proof.
  intros H. unfold shl_align.
  destruct (e' - e) as [|k|k] eqn:E; cbn [fst]; try lia.
  - replace (e - e') with 0 by lia. lia.
  - rewrite iter_xO. f_equal. f_equal. lia.
Qed.

Lemma add_canonical a b :
  0 < a -> 0 < b -> a + b < 2 ^ prec ->
  add (canonical a) (canonical b) = canonical (a + b).
Proof.
  intros Ha Hb Hab.
  destruct a as [|pa|pa]; try lia. destruct b as [|pb|pb]; try lia.
  assert (HDa : Zpos (digits2_pos pa) <= prec) by (apply digits_below_pow2; lia).
  assert (HDb : Zpos (digits2_pos pb) <= prec) by (apply digits_below_pow2; lia).
  change (Zpos pa + Zpos pb) with (Zpos (pa + pb)).
  unfold canonical at 1 2. rewrite <- !digits2_log2.
  set (Da := Zpos (digits2_pos pa)) in *. set (Db := Zpos (digits2_pos pb)) in *.
  assert (0 < Da /\ 0 < Db) as [HDa0 HDb0] by (unfold Da, Db; lia).
  assert (Hpa : 0 < 2 ^ (prec - Da)) by (apply Z.pow_pos_nonneg; lia).
  assert (Hpb : 0 < 2 ^ (prec - Db)) by (apply Z.pow_pos_nonneg; lia).
  unfold add, SFadd. cbn [cond_Zopp].
  set (ez := Z.min (Da - prec) (Db - prec)).
  rewrite !shl_align_fst by (unfold ez; lia).
  rewrite !Z2Pos.id by nia.
  rewrite <- !Z.mul_assoc, <- !Z.pow_add_r by (unfold ez; lia).
  replace (prec - Da + (Da - prec - ez)) with (- ez) by lia.
  replace (prec - Db + (Db - prec - ez)) with (- ez) by lia.
  rewrite <- Z.mul_add_distr_r.
  assert (Hpz : 0 < 2 ^ (- ez)) by (apply Z.pow_pos_nonneg; unfold ez; lia).
  destruct ((Zpos pa + Zpos pb) * 2 ^ (- ez)) as [|M|M] eqn:EM; try nia.
  cbn [binary_normalize].
  apply binary_round_exact.
  - apply digits_below_pow2. exact Hab.
  - unfold ez, emin, prec, emax in *. lia.
  - rewrite <- EM. reflexivity.
Qed.

(** Adding the floats of two non-negative integers whose sum is below
    [2^53] gives the float of the sum. *)
Lemma add_of_int a b :
  0 <= a -> 0 <= b -> a + b < 2 ^ prec ->
  add (of_int a) (of_int b) = of_int (a + b).
Proof.
  intros Ha Hb Hab.
  destruct (Z.eq_dec a 0) as [->|Na].
  - destruct (Z.eq_dec b 0) as [->|Nb]; [reflexivity|].
    rewrite Z.add_0_l. rewrite (of_int_canonical b) by lia. reflexivity.
  - destruct (Z.eq_dec b 0) as [->|Nb].
    + rewrite Z.add_0_r. rewrite (of_int_canonical a) by lia. reflexivity.
    + rewrite !of_int_canonical by lia. apply add_canonical; lia.
Qed.

End PyFloatFacts.

(** ** The notebook *)

Section NotebookFacts.

Context {T : Torch}.

Implicit Types (w : World) (bs : list Batch) (nodes : list string).

(** Unfolds the monad and the calls on the torch objects. *)
Ltac run :=
  cbv beta iota zeta delta
    [bind ret raise update gets model_train model_eval model_forward
     call_loss_fn call_metric_fn optimizer_zero_grad backward optimizer_step
     torch_save torch_load model_load_state_dict print with_no_grad].

Lemma world_ext w w' :
  state_dict w = state_dict w' -> training w = training w' ->
  grad_enabled w = grad_enabled w' -> grad w = grad w' ->
  optimizer w = optimizer w' -> best w = best w' ->
  checkpoint_pkl w = checkpoint_pkl w' -> calls w = calls w' ->
  w = w'.
Proof. destruct w, w'. cbn. intros. subst. reflexivity. Qed.

(** Reduces the fields of worlds built by the calls. *)
Ltac fields :=
  cbn [state_dict training grad_enabled grad optimizer best checkpoint_pkl
       calls fst snd log set_training set_grad_enabled set_grad set_optimizer
       set_state_dict set_best set_checkpoint_pkl add_calls after_batch
       after_evaluate after_save after_setup].

(** Proves the equality of two worlds field by field. *)
Ltac same_world :=
  apply world_ext; fields;
  unfold batch_loss, batch_metric, predict, train_batch_calls, evaluate_calls;
  fields; repeat rewrite <- app_assoc; cbn [app]; reflexivity.

Lemma add_calls_nil w : add_calls [] w = w.
Proof. destruct w. unfold add_calls. cbn. rewrite app_nil_r. reflexivity. Qed.

Lemma add_calls_app cs1 cs2 w :
  add_calls cs2 (add_calls cs1 w) = add_calls (cs1 ++ cs2) w.
Proof. same_world. Qed.

(** *** [train] *)

Lemma train_body_spec nodes loss_fn metric_fn i (b : Batch) l w :
  train_body nodes loss_fn metric_fn (i, b) l w
  = (after_batch nodes loss_fn b w,
     Ok {| it := Some i;
           epoch_loss :=
             PyFloat.add (epoch_loss l) (item (batch_loss nodes loss_fn w b));
           accuracy :=
             PyFloat.add (accuracy l)
               (item (batch_metric nodes metric_fn (training w)
                        (state_dict w) b));
           count :=
             PyFloat.add (count l)
               (PyFloat.of_int (Z.of_nat (len (value (snd b))))) |}).
Proof.
  destruct b as [g label]. unfold train_body. run.
  apply f_equal2; [same_world|].
  unfold batch_loss, batch_metric, predict. fields. reflexivity.
Qed.

Lemma train_loop_spec nodes loss_fn metric_fn bs : forall k l w,
  for_each (combine (seq k (List.length bs)) bs)
    (train_body nodes loss_fn metric_fn) l w
  = (after_pass nodes loss_fn bs w,
     Ok {| it := last_it k (List.length bs) (it l);
           epoch_loss :=
             PyFloat.sum_from (epoch_loss l) (pass_losses nodes loss_fn w bs);
           accuracy :=
             PyFloat.sum_from (accuracy l)
               (pass_metrics nodes loss_fn metric_fn w bs);
           count := count_from (count l) bs |}).
Proof.
  induction bs as [|b bs IH]; intros k l w.
  - destruct l. reflexivity.
  - cbn [List.length seq combine for_each]. unfold bind at 1.
    rewrite train_body_spec, IH. cbn [it epoch_loss accuracy count].
    f_equal. f_equal. f_equal.
    destruct (List.length bs); cbn [last_it]; f_equal; lia.
Qed.

Lemma after_pass_frame nodes loss_fn bs : forall w,
  best (after_pass nodes loss_fn bs w) = best w /\
  checkpoint_pkl (after_pass nodes loss_fn bs w) = checkpoint_pkl w /\
  training (after_pass nodes loss_fn bs w) = training w /\
  grad_enabled (after_pass nodes loss_fn bs w) = grad_enabled w /\
  calls (after_pass nodes loss_fn bs w)
  = calls w ++ flat_map (fun _ => train_batch_calls) bs.
Proof.
  unfold after_pass.
  induction bs as [|b bs IH]; intros w; cbn [fold_left flat_map].
  - rewrite app_nil_r. repeat split.
  - destruct (IH (after_batch nodes loss_fn b w)) as (E1 & E2 & E3 & E4 & E5).
    rewrite E1, E2, E3, E4, E5. cbn [after_batch best checkpoint_pkl training
      grad_enabled calls].
    rewrite <- app_assoc. repeat split.
Qed.

(** *** Counting examples *)

Lemma count_from_keeps_positive bs : forall c,
  PyFloat.is_positive c = true ->
  PyFloat.is_positive (count_from c bs) = true.
Proof.
  unfold count_from.
  induction bs as [|b bs IH]; intros c H; cbn [fold_left]; [exact H|].
  apply IH. destruct (len (value (snd b))) as [|n] eqn:E.
  - rewrite PyFloatFacts.add_zero_r; assumption.
  - apply PyFloatFacts.add_positive; [right; exact H|].
    apply PyFloatFacts.of_int_positive. lia.
Qed.

Lemma count_from_positive bs : forall c,
  c = PyFloat.zero \/ PyFloat.is_positive c = true ->
  Exists has_example bs ->
  PyFloat.is_positive (count_from c bs) = true.
Proof.
  induction bs as [|b bs IH]; intros c Hc H; inversion H; subst.
  - unfold count_from. cbn [fold_left]. apply (count_from_keeps_positive bs).
    apply PyFloatFacts.add_positive; [exact Hc|].
    apply PyFloatFacts.of_int_positive. unfold has_example in *. lia.
  - unfold count_from. cbn [fold_left]. apply IH; [|assumption].
    destruct (len (value (snd b))) as [|n] eqn:E.
    + destruct Hc as [->|Hc]; [left; reflexivity|right].
      rewrite PyFloatFacts.add_zero_r; assumption.
    + right. apply PyFloatFacts.add_positive; [exact Hc|].
      apply PyFloatFacts.of_int_positive. lia.
Qed.

Lemma examples_seen_nonzero bs :
  Exists has_example bs -> PyFloat.is_zero (examples_seen bs) = false.
Proof.
  intros H. apply PyFloatFacts.is_positive_not_zero.
  apply count_from_positive; [left; reflexivity|exact H].
Qed.

Lemma examples_seen_none bs :
  Forall (fun b => len (value (snd b)) = 0%nat) bs ->
  examples_seen bs = PyFloat.zero.
Proof.
  unfold examples_seen, count_from.
  induction 1 as [|b bs E _ IH]; cbn [fold_left]; [reflexivity|].
  rewrite E. exact IH.
Qed.

(** Below [2^53] the count is the number of examples, exactly. *)
Lemma count_from_exact bs : forall c,
  0 <= c -> c + Z.of_nat (total_examples bs) < 2 ^ PyFloat.prec ->
  count_from (PyFloat.of_int c) bs
  = PyFloat.of_int (c + Z.of_nat (total_examples bs)).
Proof.
  unfold count_from.
  induction bs as [|b bs IH]; intros c H0 H.
  - cbn. rewrite Z.add_0_r. reflexivity.
  - change (total_examples (b :: bs))
      with (len (value (snd b)) + total_examples bs)%nat in *.
    cbn [fold_left].
    rewrite PyFloatFacts.add_of_int by lia.
    rewrite IH by lia. f_equal. lia.
Qed.

Lemma examples_seen_exact bs :
  Z.of_nat (total_examples bs) < 2 ^ PyFloat.prec ->
  examples_seen bs = PyFloat.of_int (Z.of_nat (total_examples bs)).
Proof.
  intros H. apply (count_from_exact bs 0); lia.
Qed.

(** The outcome of [train] in general. *)
Lemma train_result nodes loss_fn metric_fn bs w :
  train nodes bs loss_fn metric_fn w
  = (after_pass nodes loss_fn bs (in_training w),
     match bs with
     | [] => Raise UnboundLocalError
     | _ :: _ =>
         if PyFloat.is_zero (examples_seen bs) then Raise ZeroDivisionError
         else Ok (train_value nodes loss_fn metric_fn bs w)
     end).
Proof.
  unfold train, enumerate, train_value. unfold bind at 1.
  unfold model_train, update. unfold bind at 1. rewrite train_loop_spec.
  fold (in_training w).
  unfold bind, read_it, truediv, ret, raise. cbn [it epoch_loss accuracy count].
  destruct bs as [|b bs]; [reflexivity|]. cbn [List.length last_it].
  replace (Z.of_nat (0 + List.length bs) + 1)
    with (Z.of_nat (S (List.length bs))) by lia.
  rewrite (PyFloatFacts.is_positive_not_zero
             (PyFloat.of_int (Z.of_nat (S (List.length bs)))))
    by (apply PyFloatFacts.of_int_positive; lia).
  fold (examples_seen (b :: bs)).
  destruct (PyFloat.is_zero (examples_seen (b :: bs))); reflexivity.
Qed.

(** Whatever [train] returns, it leaves the world of the completed pass. *)
Lemma train_world nodes loss_fn metric_fn bs w :
  fst (train nodes bs loss_fn metric_fn w)
  = after_pass nodes loss_fn bs (in_training w).
Proof. rewrite train_result. reflexivity. Qed.

(** The outcome of [train] on a pass with at least one example. *)
Lemma train_spec nodes loss_fn metric_fn bs w :
  Exists has_example bs ->
  train nodes bs loss_fn metric_fn w
  = (after_pass nodes loss_fn bs (in_training w),
     Ok (train_value nodes loss_fn metric_fn bs w)).
Proof.
  intros H. rewrite train_result, (examples_seen_nonzero bs H).
  destruct bs; [inversion H|reflexivity].
Qed.

(** *** [evaluate] *)

Lemma evaluate_loop_spec nodes metric_fn bs : forall a c w,
  training w = false ->
  for_each bs (evaluate_body nodes metric_fn) (a, c) w
  = (add_calls (flat_map (fun _ => [EvModelCall; EvMetricFn]) bs) w,
     Ok (PyFloat.sum_from a (eval_metrics nodes metric_fn (state_dict w) bs),
         count_from c bs)).
Proof.
  induction bs as [|[g label] bs IH]; intros a c w H.
  - cbn. rewrite add_calls_nil. reflexivity.
  - cbn [for_each flat_map]. unfold bind at 1.
    unfold evaluate_body at 1. run. rewrite H.
    rewrite IH by exact H.
    apply f_equal2; [same_world|reflexivity].
Qed.

Lemma evaluate_spec nodes metric_fn bs w :
  evaluate nodes bs metric_fn w
  = (after_evaluate bs w, evaluate_value nodes metric_fn (state_dict w) bs).
Proof.
  unfold evaluate. run.
  rewrite evaluate_loop_spec by reflexivity.
  unfold truediv, evaluate_value, examples_seen. cbn [fst snd].
  destruct (PyFloat.is_zero (count_from PyFloat.zero bs));
    unfold ret, raise; (apply f_equal2; [same_world|reflexivity]).
Qed.

(** An evaluation pass that returns a value: when some batch has an
    example. *)
Lemma evaluate_value_ok nodes metric_fn p bs :
  Exists has_example bs ->
  evaluate_value nodes metric_fn p bs = Ok (accuracy_value nodes metric_fn p bs).
Proof.
  intros H. unfold evaluate_value.
  rewrite (examples_seen_nonzero bs H). reflexivity.
Qed.

(** *** The checkpoint *)

Lemma maybe_save_spec v w :
  maybe_save v w
  = (if PyFloat.ltb v (best w) then after_save v w else w, Ok tt).
Proof.
  unfold maybe_save. unfold bind at 1. unfold gets.
  destruct (PyFloat.ltb v (best w)); [|reflexivity].
  run. apply f_equal2; [same_world|reflexivity].
Qed.

Lemma maybe_save_all_spec vs : forall w,
  snd (maybe_save_all vs w) = Ok tt /\
  best (fst (maybe_save_all vs w)) = running_best (best w) vs /\
  saves (calls (fst (maybe_save_all vs w)))
  = (saves (calls w) + improvements (best w) vs)%nat /\
  state_dict (fst (maybe_save_all vs w)) = state_dict w.
Proof.
  unfold maybe_save_all, running_best.
  induction vs as [|v vs IH]; intros w; cbn [for_each fold_left improvements].
  - cbn. repeat split. lia.
  - unfold bind at 1 2 3 4. rewrite maybe_save_spec.
    destruct (PyFloat.ltb v (best w)).
    + destruct (IH (after_save v w)) as (E1 & E2 & E3 & E4).
      rewrite E1, E2, E3, E4. cbn [after_save best calls state_dict].
      unfold saves. rewrite filter_app, length_app. cbn. repeat split. lia.
    + apply IH.
Qed.

(** *** Calls that save *)

Lemma saves_app cs1 cs2 : saves (cs1 ++ cs2) = (saves cs1 + saves cs2)%nat.
Proof. unfold saves. rewrite filter_app, length_app. reflexivity. Qed.

Lemma saves_train_calls bs :
  saves (flat_map (fun _ : Batch => train_batch_calls) bs) = 0%nat.
Proof.
  induction bs as [|b bs IH]; [reflexivity|].
  cbn [flat_map]. rewrite saves_app, IH. reflexivity.
Qed.

Lemma saves_evaluate_calls bs : saves (evaluate_calls bs) = 0%nat.
Proof.
  unfold evaluate_calls.
  change (saves ([EvModelEval; EvNoGradEnter]
                   ++ flat_map (fun _ : Batch => [EvModelCall; EvMetricFn]) bs
                   ++ [EvNoGradExit]) = 0%nat).
  rewrite !saves_app.
  replace (saves (flat_map (fun _ : Batch => [EvModelCall; EvMetricFn]) bs))
    with 0%nat; [reflexivity|].
  induction bs as [|b bs IH]; [reflexivity|].
  cbn [flat_map]. rewrite saves_app, <- IH. reflexivity.
Qed.

(** Neither [train] nor [evaluate] touches the checkpoint. *)
Lemma train_frame nodes loss_fn metric_fn bs w :
  best (fst (train nodes bs loss_fn metric_fn w)) = best w /\
  checkpoint_pkl (fst (train nodes bs loss_fn metric_fn w)) = checkpoint_pkl w /\
  saves (calls (fst (train nodes bs loss_fn metric_fn w))) = saves (calls w).
Proof.
  rewrite train_world.
  destruct (after_pass_frame nodes loss_fn bs (in_training w))
    as (E1 & E2 & _ & _ & E5).
  rewrite E1, E2, E5. cbn [in_training set_training log best checkpoint_pkl calls].
  rewrite !saves_app, saves_train_calls. cbn. repeat split. lia.
Qed.

Lemma evaluate_frame nodes metric_fn bs w :
  best (fst (evaluate nodes bs metric_fn w)) = best w /\
  checkpoint_pkl (fst (evaluate nodes bs metric_fn w)) = checkpoint_pkl w /\
  saves (calls (fst (evaluate nodes bs metric_fn w))) = saves (calls w).
Proof.
  rewrite evaluate_spec. cbn [fst after_evaluate best checkpoint_pkl calls].
  rewrite saves_app, saves_evaluate_calls. repeat split. lia.
Qed.

(** *** The driver *)

Lemma epoch_body_of_run d epoch w w' l :
  epoch_run d epoch w w' l -> epoch_body d epoch tt w = (w', Ok tt).
Proof.
  intros [loss train_acc val_acc w1 w2 w3 H1 H2 H3 -> H4].
  unfold epoch_body. unfold bind at 1. rewrite H1.
  unfold bind at 1. rewrite H2. unfold bind at 1. rewrite H3. exact H4.
Qed.

Lemma epochs_of_run d epoch n w w' ls :
  epochs_run d epoch n w w' ls ->
  for_each (seq epoch n) (epoch_body d) tt w = (w', Ok tt).
Proof.
  induction 1 as [epoch w|epoch n w w1 w2 l ls H1 _ IH]; [reflexivity|].
  cbn [seq for_each]. unfold bind at 1.
  rewrite (epoch_body_of_run _ _ _ _ _ H1). exact IH.
Qed.

Lemma training_phase_spec d n w :
  training_phase d n w = for_each (range n) (epoch_body d) tt (after_setup w).
Proof.
  unfold training_phase. run.
  replace (log (EvPrint LHeader)
             (set_best best_init (set_optimizer (Adam (state_dict w)) w)))
    with (after_setup w) by same_world.
  reflexivity.
Qed.

(** The epochs run to their end when every pass has an example. *)
Lemma epoch_run_after_epoch d epoch w :
  Exists has_example (train_loader d epoch) ->
  Exists has_example (val_loader d) ->
  epoch_run d epoch w (fst (after_epoch d epoch w))
    (snd (after_epoch d epoch w)).
Proof.
  intros Ht Hv. eapply epoch_run_intro.
  - apply train_spec. exact Ht.
  - rewrite evaluate_spec, (evaluate_value_ok _ _ _ _ Hv). reflexivity.
  - apply maybe_save_spec.
  - reflexivity.
  - reflexivity.
Qed.

Lemma epochs_run_after_epochs d n : forall epoch w,
  (forall k, (epoch <= k < epoch + n)%nat ->
     Exists has_example (train_loader d k)) ->
  Exists has_example (val_loader d) ->
  epochs_run d epoch n w (fst (after_epochs d epoch n w))
    (snd (after_epochs d epoch n w)).
Proof.
  induction n as [|n IH]; intros epoch w Ht Hv; cbn [after_epochs fst snd].
  - constructor.
  - econstructor.
    + apply epoch_run_after_epoch; [apply Ht; lia|exact Hv].
    + apply IH; [intros k Hk; apply Ht; lia|exact Hv].
Qed.

Lemma after_epochs_lines d n : forall epoch w,
  map line_epoch (snd (after_epochs d epoch n w)) = map Some (seq epoch n).
Proof.
  induction n as [|n IH]; intros epoch w; cbn [after_epochs snd map seq].
  - reflexivity.
  - rewrite IH. reflexivity.
Qed.

(** An epoch whose validation metric does not improve on [best] leaves the
    checkpoint alone. *)
Lemma epoch_run_no_save d epoch w w' l :
  epoch_run d epoch w w' l ->
  match line_val_acc l with
  | Some v => PyFloat.ltb v (best w) = false
  | None => True
  end ->
  best w' = best w /\ checkpoint_pkl w' = checkpoint_pkl w /\
  saves (calls w') = saves (calls w).
Proof.
  intros [loss train_acc val_acc w1 w2 w3 H1 H2 H3 -> H4] Hv.
  cbn [line_val_acc] in Hv.
  destruct (train_frame feature_names MSELoss WeightedL1Loss
              (train_loader d epoch) w) as (A1 & A2 & A3).
  rewrite H1 in A1, A2, A3. cbn [fst] in A1, A2, A3.
  destruct (evaluate_frame feature_names WeightedL1Loss (val_loader d) w1)
    as (B1 & B2 & B3).
  rewrite H2 in B1, B2, B3. cbn [fst] in B1, B2, B3.
  rewrite maybe_save_spec in H3.
  rewrite B1, A1, Hv in H3. inversion H3; subst w3.
  unfold print, update in H4. inversion H4; subst w'.
  cbn [log best checkpoint_pkl calls]. rewrite saves_app. cbn.
  repeat split; try congruence. lia.
Qed.

Lemma epochs_run_no_save d epoch n w w' ls :
  epochs_run d epoch n w w' ls ->
  all_at_least (best w) ls = true ->
  best w' = best w /\ checkpoint_pkl w' = checkpoint_pkl w /\
  saves (calls w') = saves (calls w).
Proof.
  induction 1 as [epoch w|epoch n w w1 w2 l ls H1 _ IH]; intros Hall.
  - repeat split.
  - cbn [all_at_least forallb] in Hall. apply andb_true_iff in Hall.
    destruct Hall as [Hl Hls].
    destruct (epoch_run_no_save _ _ _ _ _ H1) as (E1 & E2 & E3).
    { destruct (line_val_acc l); [|exact I].
      apply PyFloatFacts.leb_not_ltb. exact Hl. }
    rewrite <- E1 in Hls. destruct (IH Hls) as (F1 & F2 & F3).
    repeat split; congruence.
Qed.

Lemma testing_phase_missing d w :
  checkpoint_pkl w = None ->
  testing_phase d w = (log EvLoad w, Raise FileNotFoundError).
Proof.
  intros H. unfold testing_phase. unfold bind at 1. unfold torch_load.
  rewrite H. reflexivity.
Qed.

Lemma main_spec d n w w1 :
  training_phase d n w = (w1, Ok tt) -> main d n w = testing_phase d w1.
Proof. intros H. unfold main. unfold bind at 1. rewrite H. reflexivity. Qed.

(** ** The claims *)

(** C1. The checkpoint block saves exactly when the current validation
    metric is strictly below [best]: then it writes the parameters to
    [checkpoint.pkl] and sets [best] to the metric, and otherwise it changes
    nothing.  Over any sequence of metrics, [best] ends at the running
    strict minimum and the number of saves is the number of strict
    improvements.  From [best = 1e10], the metrics [5.0, 3.0, 4.0, 2.0]
    leave [best = 2.0] after exactly three saves. *)
Theorem checkpoint_saves_iff_strictly_better (v : float) (vs : list float) w :
  maybe_save v w
  = (if PyFloat.ltb v (best w) then after_save v w else w, Ok tt)
  /\ (snd (maybe_save_all vs w) = Ok tt
      /\ best (fst (maybe_save_all vs w)) = running_best (best w) vs
      /\ saves (calls (fst (maybe_save_all vs w)))
         = (saves (calls w) + improvements (best w) vs)%nat)
  /\ (let w' :=
        fst (maybe_save_all
               [PyFloat.of_int 5; PyFloat.of_int 3; PyFloat.of_int 4;
                PyFloat.of_int 2] (set_best best_init w)) in
      best w' = PyFloat.of_int 2
      /\ saves (calls w') = (saves (calls w) + 3)%nat
      /\ checkpoint_pkl w' = Some (state_dict w)).
Proof.
  split; [apply maybe_save_spec|]. split.
  - destruct (maybe_save_all_spec vs w) as (E1 & E2 & E3 & _).
    repeat split; assumption.
  - cbv zeta.
    destruct (maybe_save_all_spec
                [PyFloat.of_int 5; PyFloat.of_int 3; PyFloat.of_int 4;
                 PyFloat.of_int 2] (set_best best_init w))
      as (_ & E2 & E3 & _).
    split; [rewrite E2; reflexivity|]. split; [rewrite E3; reflexivity|].
    reflexivity.
Qed.

(** C2, as amended.  In each iteration of the loop of [train] the calls are,
    in this order: the model, the loss function, [optimizer.zero_grad()],
    [loss.backward()], [optimizer.step()], the metric function.  The
    gradients are reset before they are computed, not after the step: the
    step uses the gradient of the loss of this batch alone, and the gradient
    buffers still hold it when the iteration ends.  A whole pass makes these
    calls once per batch after [model.train()]. *)
Theorem update_resets_before_gradients nodes loss_fn metric_fn i
  (b : Batch) l bs w :
  let w' := fst (train_body nodes loss_fn metric_fn (i, b) l w) in
  calls w'
  = calls w
      ++ [EvModelCall; EvLossFn; EvZeroGrad; EvBackward; EvStep; EvMetricFn]
  /\ grad w' = grad_add grad_zero (grad_of (batch_loss nodes loss_fn w b))
  /\ (optimizer w', state_dict w')
     = opt_step (optimizer w) (grad w') (state_dict w)
  /\ calls (fst (train nodes bs loss_fn metric_fn w))
     = calls w
         ++ EvModelTrain
         :: flat_map
              (fun _ =>
                 [EvModelCall; EvLossFn; EvZeroGrad; EvBackward; EvStep;
                  EvMetricFn]) bs.
Proof.
  cbv zeta. rewrite train_body_spec. cbn [fst].
  split; [reflexivity|]. split; [reflexivity|]. split.
  - cbn [after_batch optimizer state_dict grad].
    destruct (opt_step _ _ _); reflexivity.
  - rewrite train_world.
    destruct (after_pass_frame nodes loss_fn bs (in_training w))
      as (_ & _ & _ & _ & E).
    rewrite E. cbn [in_training set_training log calls].
    rewrite <- app_assoc. reflexivity.
Qed.

(** C3. On a pass with at least one example, [train] returns the pair of
    [epoch_loss / number of batches] and [accuracy / count]: [epoch_loss] is
    the sum of the per-batch losses, [accuracy] the sum of the per-batch
    metrics [metric_fn(pred, target, stdev)], and [count] the number of
    examples of the batches, each accumulated in floats in batch order.
    Below [2^53] examples the count is exact: it is the float of the total
    number of examples. *)
Theorem train_returns_means nodes loss_fn metric_fn bs w :
  Exists has_example bs ->
  train nodes bs loss_fn metric_fn w
  = (after_pass nodes loss_fn bs (in_training w),
     Ok (PyFloat.div
           (PyFloat.sum_from PyFloat.zero
              (pass_losses nodes loss_fn (in_training w) bs))
           (PyFloat.of_int (Z.of_nat (List.length bs))),
         PyFloat.div
           (PyFloat.sum_from PyFloat.zero
              (pass_metrics nodes loss_fn metric_fn (in_training w) bs))
           (examples_seen bs)))
  /\ (Z.of_nat (total_examples bs) < 2 ^ 53 ->
      examples_seen bs = PyFloat.of_int (Z.of_nat (total_examples bs))).
Proof.
  intros H. split.
  - rewrite train_result, (examples_seen_nonzero bs H).
    destruct bs as [|b bs]; [inversion H|reflexivity].
  - apply examples_seen_exact.
Qed.

(** C4. On a loader with at least one example, [evaluate] run twice returns
    the same accuracy both times, and after each run the parameters of the
    model (and the gradient buffers and the optimizer) are what they were
    before it. *)
Theorem evaluate_twice nodes metric_fn bs w :
  Exists has_example bs ->
  exists (a : float) (w1 w2 : World),
    evaluate nodes bs metric_fn w = (w1, Ok a)
    /\ evaluate nodes bs metric_fn w1 = (w2, Ok a)
    /\ state_dict w1 = state_dict w /\ state_dict w2 = state_dict w1
    /\ grad w1 = grad w /\ grad w2 = grad w1
    /\ optimizer w1 = optimizer w /\ optimizer w2 = optimizer w1.
Proof.
  intros H. eexists. eexists. eexists.
  split; [rewrite evaluate_spec, (evaluate_value_ok _ _ _ _ H); reflexivity|].
  split; [rewrite evaluate_spec, (evaluate_value_ok _ _ _ _ H); reflexivity|].
  repeat split.
Qed.

(** C6. The checkpoint block run on a NaN metric changes nothing, whatever
    the state: NaN is not below any [best].  The values an epoch computes go
    into its progress line as they are, finite or not; when the validation
    metric is NaN the epoch prints its line and saves nothing. *)
Theorem nan_metric_is_printed_not_saved d epoch w w1 w2
  (loss train_acc val_acc : float) :
  train feature_names (train_loader d epoch) MSELoss WeightedL1Loss w
    = (w1, Ok (loss, train_acc)) ->
  evaluate feature_names (val_loader d) WeightedL1Loss w1
    = (w2, Ok val_acc) ->
  (forall w', maybe_save PyFloat.nan w' = (w', Ok tt))
  /\ epoch_body d epoch tt w
     = (log (EvPrint (LProgress epoch loss train_acc val_acc))
          (fst (maybe_save val_acc w2)), Ok tt)
  /\ (val_acc = PyFloat.nan ->
      epoch_body d epoch tt w
      = (log (EvPrint (LProgress epoch loss train_acc PyFloat.nan)) w2, Ok tt)).
Proof.
  intros H1 H2.
  assert (N : forall w', maybe_save PyFloat.nan w' = (w', Ok tt)).
  { intros w'. rewrite maybe_save_spec, PyFloatFacts.ltb_nan_l. reflexivity. }
  assert (B : epoch_body d epoch tt w
              = (log (EvPrint (LProgress epoch loss train_acc val_acc))
                   (fst (maybe_save val_acc w2)), Ok tt)).
  { unfold epoch_body. unfold bind at 1. rewrite H1.
    unfold bind at 1. rewrite H2. unfold bind at 1.
    rewrite maybe_save_spec. reflexivity. }
  split; [exact N|]. split; [exact B|].
  intros ->. rewrite B, N. reflexivity.
Qed.

(** C7. Without a checkpoint file, [torch.load] raises [FileNotFoundError],
    and so does the test of the best model; with [num_epochs = 0] nothing
    is saved and the driver ends in this error. *)
Theorem load_without_checkpoint_fails d w :
  checkpoint_pkl w = None ->
  torch_load w = (log EvLoad w, Raise FileNotFoundError)
  /\ testing_phase d w = (log EvLoad w, Raise FileNotFoundError)
  /\ main d 0 w = (log EvLoad (after_setup w), Raise FileNotFoundError).
Proof.
  intros H. split; [unfold torch_load; rewrite H; reflexivity|].
  split; [apply testing_phase_missing; exact H|].
  rewrite (main_spec d 0 w (after_setup w)).
  - apply testing_phase_missing. exact H.
  - rewrite training_phase_spec. reflexivity.
Qed.

(** C8. On a loader whose batches hold no example, and so on a loader
    without batches, the count of [evaluate] stays [0.0] and the final
    division raises [ZeroDivisionError]. *)
Theorem evaluate_without_examples_fails nodes metric_fn bs w :
  Forall (fun b => len (value (snd b)) = 0%nat) bs ->
  examples_seen bs = PyFloat.zero
  /\ evaluate nodes bs metric_fn w
     = (after_evaluate bs w, Raise ZeroDivisionError).
Proof.
  intros H. pose proof (examples_seen_none bs H) as E.
  split; [exact E|].
  rewrite evaluate_spec. unfold evaluate_value. rewrite E. reflexivity.
Qed.

(** C10. On a loader without batches [train] returns no pair and does not
    reach a division: the loop never binds [it], and reading it in
    [epoch_loss /= it + 1] raises [UnboundLocalError].  This is the only
    case in which [train] raises this error: with a batch, it returns a pair
    or fails in the division by [count]. *)
Theorem train_without_batches_fails nodes loss_fn metric_fn bs w :
  train nodes [] loss_fn metric_fn w = (in_training w, Raise UnboundLocalError)
  /\ (snd (train nodes bs loss_fn metric_fn w) = Raise UnboundLocalError
      <-> bs = []).
Proof.
  split; [apply train_result|].
  rewrite train_result. cbn [snd]. split.
  - destruct bs as [|b bs]; [reflexivity|].
    destruct (PyFloat.is_zero (examples_seen (b :: bs))); discriminate.
  - intros ->. reflexivity.
Qed.

End NotebookFacts.

(** ** The claims on the small instance *)

Section Instances.

Import Toy.

(** C2: on [batch1], from a world with stale gradients, the update calls of
    one iteration are not in the order the specification lists, and the
    gradient buffers are not reset when the iteration ends. *)
Lemma update_order_counterexample :
  update_calls
    (calls (fst (train_body (T := toy) feature_names loss_fn metric_fn
                   (0%nat, batch1)
                   {| it := None; epoch_loss := PyFloat.zero;
                      accuracy := PyFloat.zero; count := PyFloat.zero |}
                   world0)))
  <> update_order_as_specified
  /\ grad (fst (train_body (T := toy) feature_names loss_fn metric_fn
                  (0%nat, batch1)
                  {| it := None; epoch_loss := PyFloat.zero;
                     accuracy := PyFloat.zero; count := PyFloat.zero |}
                  world0))
     <> grad_zero.
Proof. split; intros H; discriminate H. Qed.

Lemma train_returns_means_witness :
  Exists has_example [batch1; batch1]
  /\ train (T := toy) feature_names [batch1; batch1] loss_fn metric_fn world0
     = (after_pass feature_names loss_fn [batch1; batch1] (in_training world0),
        Ok (PyFloat.div
              (PyFloat.sum_from PyFloat.zero
                 (pass_losses feature_names loss_fn (in_training world0)
                    [batch1; batch1]))
              (PyFloat.of_int 2),
            PyFloat.div
              (PyFloat.sum_from PyFloat.zero
                 (pass_metrics feature_names loss_fn metric_fn
                    (in_training world0) [batch1; batch1]))
              (examples_seen [batch1; batch1])))
  /\ examples_seen (T := toy) [batch1; batch1] = PyFloat.of_int 4.
Proof.
  assert (H : Exists (has_example (T := toy)) [batch1; batch1])
    by (apply Exists_cons_hd; intros E; discriminate E).
  split; [exact H|].
  destruct (train_returns_means (T := toy) feature_names loss_fn metric_fn
              [batch1; batch1] world0 H) as [E1 E2].
  split; [exact E1|]. apply E2. reflexivity.
Defined.

Lemma evaluate_twice_witness :
  Exists has_example [batch1]
  /\ exists (a : float) (w1 w2 : @World toy),
       evaluate feature_names [batch1] metric_fn world0 = (w1, Ok a)
       /\ evaluate feature_names [batch1] metric_fn w1 = (w2, Ok a)
       /\ state_dict w1 = state_dict world0 /\ state_dict w2 = state_dict w1
       /\ grad w1 = grad world0 /\ grad w2 = grad w1
       /\ optimizer w1 = optimizer world0 /\ optimizer w2 = optimizer w1.
Proof.
  assert (H : Exists (has_example (T := toy)) [batch1])
    by (apply Exists_cons_hd; intros E; discriminate E).
  split; [exact H|].
  apply (evaluate_twice (T := toy) feature_names metric_fn [batch1] world0 H).
Defined.

Lemma nan_metric_is_printed_not_saved_witness :
  exists (w1 w2 : @World toy) (loss train_acc : float),
    train feature_names (train_loader loaders_nan 0) MSELoss WeightedL1Loss
      world0 = (w1, Ok (loss, train_acc))
    /\ evaluate feature_names (val_loader loaders_nan) WeightedL1Loss w1
       = (w2, Ok PyFloat.nan)
    /\ epoch_body loaders_nan 0 tt world0
       = (log (EvPrint (LProgress 0 loss train_acc PyFloat.nan)) w2, Ok tt).
Proof.
  assert (Ht : Exists (has_example (T := toy)) (train_loader loaders_nan 0))
    by (apply Exists_cons_hd; intros E; discriminate E).
  pose proof (train_spec (T := toy) feature_names MSELoss WeightedL1Loss
                (train_loader loaders_nan 0) world0 Ht) as H1.
  set (w1 := after_pass (T := toy) feature_names MSELoss
               (train_loader loaders_nan 0) (in_training world0)) in *.
  assert (H2 : evaluate (T := toy) feature_names (val_loader loaders_nan)
                 WeightedL1Loss w1
               = (after_evaluate (val_loader loaders_nan) w1, Ok PyFloat.nan)).
  { rewrite evaluate_spec. apply f_equal. vm_compute. reflexivity. }
  exists w1, (after_evaluate (val_loader loaders_nan) w1).
  exists (fst (train_value (T := toy) feature_names MSELoss WeightedL1Loss
                 (train_loader loaders_nan 0) world0)).
  exists (snd (train_value (T := toy) feature_names MSELoss WeightedL1Loss
                 (train_loader loaders_nan 0) world0)).
  split; [exact H1|]. split; [exact H2|].
  exact (proj2 (proj2 (nan_metric_is_printed_not_saved (T := toy) loaders_nan
                         0%nat world0 _ _ _ _ _ H1 H2)) eq_refl).
Defined.

Lemma load_without_checkpoint_fails_witness :
  checkpoint_pkl world0 = None
  /\ torch_load world0 = (log EvLoad world0, Raise FileNotFoundError)
  /\ testing_phase loaders world0
     = (log EvLoad world0, Raise FileNotFoundError)
  /\ main loaders 0 world0
     = (log EvLoad (after_setup world0), Raise FileNotFoundError).
Proof.
  split; [reflexivity|].
  apply (load_without_checkpoint_fails (T := toy) loaders world0).
  reflexivity.
Defined.

Lemma evaluate_without_examples_fails_witness :
  Forall (fun b : @Batch toy => len (value (snd b)) = 0%nat)
    [batch_empty; batch_empty]
  /\ examples_seen [batch_empty; batch_empty] = PyFloat.zero
  /\ evaluate feature_names [batch_empty; batch_empty] metric_fn world0
     = (after_evaluate [batch_empty; batch_empty] world0,
        Raise ZeroDivisionError).
Proof.
  assert (H : Forall (fun b : @Batch toy => len (value (snd b)) = 0%nat)
                [batch_empty; batch_empty])
    by (repeat constructor).
  split; [exact H|].
  apply (evaluate_without_examples_fails (T := toy) feature_names metric_fn
           [batch_empty; batch_empty] world0 H).
Defined.

End Instances.

(** * Further properties of the notebook

    ** Floats: the order, and values that are not numbers *)

Module PyFloatOrderFacts.
Import PyFloat PyFloatOrder.

Lemma compare_cont_spec p q :
  match Pos.compare_cont Eq p q with
  | Eq => Zpos p = Zpos q
  | Lt => Zpos p < Zpos q
  | Gt => Zpos q < Zpos p
  end.
Proof.
  change (Pos.compare_cont Eq p q) with (Pos.compare p q).
  destruct (Pos.compare_spec p q); lia.
Qed.

(** The comparison of two floats, on their keys. *)
Lemma SFcompare_key x y :
  is_nan x = false -> is_nan y = false ->
  match SFcompare x y with
  | Some Eq => key x = key y
  | Some Lt => key_lt (key x) (key y)
  | Some Gt => key_lt (key y) (key x)
  | None => False
  end.
Proof.
  intros Hx Hy.
  destruct x as [sx|[|]| |[|] mx ex]; try discriminate;
    destruct y as [sy|[|]| |[|] my ey]; try discriminate;
    cbn [SFcompare key key_lt]; try reflexivity; try lia.
  - pose proof (compare_cont_spec mx my).
    destruct (Z.compare_spec ex ey); cbn [CompOpp]; try lia.
    destruct (Pos.compare_cont Eq mx my); cbn [CompOpp];
      [f_equal; [f_equal|]; lia|lia|lia].
  - pose proof (compare_cont_spec mx my).
    destruct (Z.compare_spec ex ey); try lia.
    destruct (Pos.compare_cont Eq mx my);
      [f_equal; [f_equal|]; lia|lia|lia].
Qed.

Lemma SFcompare_nan x y :
  SFcompare x y = None <-> is_nan x = true \/ is_nan y = true.
Proof.
  split.
  - destruct x as [sx|[|]| |[|] mx ex], y as [sy|[|]| |[|] my ey];
      cbn; intros H; try discriminate; auto.
  - intros [H|H].
    + destruct x; try discriminate. reflexivity.
    + destruct y; try discriminate. destruct x; reflexivity.
Qed.

Lemma leb_key x y :
  leb x y = true ->
  is_nan x = false /\ is_nan y = false
  /\ (key x = key y \/ key_lt (key x) (key y)).
Proof.
  unfold leb, SFleb. intros H.
  destruct (is_nan x) eqn:Nx.
  { destruct x; discriminate. }
  destruct (is_nan y) eqn:Ny.
  { destruct y; try discriminate. destruct x; discriminate. }
  pose proof (SFcompare_key x y Nx Ny) as K.
  destruct (SFcompare x y) as [[ | | ]|]; try discriminate; auto.
Qed.

Lemma key_leb x y :
  is_nan x = false -> is_nan y = false ->
  key x = key y \/ key_lt (key x) (key y) -> leb x y = true.
Proof.
  intros Nx Ny H. unfold leb, SFleb.
  pose proof (SFcompare_key x y Nx Ny) as K.
  destruct (SFcompare x y) as [[ | | ]|]; try reflexivity; try contradiction.
  exfalso. destruct (key x) as [[a1 a2] a3], (key y) as [[b1 b2] b3].
  unfold key_lt in *. destruct H as [H|H]; [inversion H; lia|lia].
Qed.

(** [x <= y] on floats is transitive. *)
Lemma leb_trans x y z : leb x y = true -> leb y z = true -> leb x z = true.
Proof.
  intros H1 H2.
  destruct (leb_key x y H1) as (Nx & Ny & K1).
  destruct (leb_key y z H2) as (_ & Nz & K2).
  apply key_leb; try assumption.
  destruct (key x) as [[a1 a2] a3], (key y) as [[b1 b2] b3],
    (key z) as [[c1 c2] c3].
  unfold key_lt in *.
  destruct K1 as [K1|K1]; [inversion K1; subst|];
    (destruct K2 as [K2|K2]; [inversion K2; subst|]); auto; right; lia.
Qed.

Lemma leb_refl x : is_nan x = false -> leb x x = true.
Proof. intros H. apply key_leb; auto. Qed.

Lemma ltb_leb x y : ltb x y = true -> leb x y = true.
Proof.
  unfold ltb, leb, SFltb, SFleb.
  destruct (SFcompare x y) as [[ | | ]|]; congruence.
Qed.

Lemma ltb_not_nan x y :
  ltb x y = true -> is_nan x = false /\ is_nan y = false.
Proof. intros H. apply ltb_leb, leb_key in H. tauto. Qed.

(** Among floats other than NaN, [y <= x] when [x < y] fails. *)
Lemma not_ltb_leb x y :
  is_nan x = false -> is_nan y = false -> ltb x y = false -> leb y x = true.
Proof.
  intros Nx Ny H. unfold ltb, leb, SFltb, SFleb in *.
  rewrite (PyFloatFacts.SFcompare_swap x y).
  destruct (SFcompare x y) as [[ | | ]|] eqn:E; try reflexivity; try discriminate.
  apply SFcompare_nan in E. destruct E; congruence.
Qed.

Lemma ltb_irrefl x : ltb x x = false.
Proof.
  destruct (ltb x x) eqn:E; [|reflexivity].
  pose proof (PyFloatFacts.leb_not_ltb x x (ltb_leb x x E)). congruence.
Qed.

(** [x < y] on floats, on their keys. *)
Lemma ltb_key x y :
  ltb x y = true ->
  is_nan x = false /\ is_nan y = false /\ key_lt (key x) (key y).
Proof.
  intros H. destruct (ltb_not_nan x y H) as [Nx Ny].
  split; [exact Nx|]. split; [exact Ny|].
  pose proof (SFcompare_key x y Nx Ny) as K.
  unfold ltb, SFltb in H.
  destruct (SFcompare x y) as [[ | | ]|]; try discriminate. exact K.
Qed.

Lemma key_ltb x y :
  is_nan x = false -> is_nan y = false ->
  key_lt (key x) (key y) -> ltb x y = true.
Proof.
  intros Nx Ny H. unfold ltb, SFltb.
  pose proof (SFcompare_key x y Nx Ny) as K.
  destruct (SFcompare x y) as [[ | | ]|]; try reflexivity; try contradiction;
    exfalso; destruct (key x) as [[a1 a2] a3], (key y) as [[b1 b2] b3];
    unfold key_lt in *; [inversion K; lia|lia].
Qed.

(** [x < y] and [y <= z] give [x < z]. *)
Lemma ltb_leb_trans x y z :
  ltb x y = true -> leb y z = true -> ltb x z = true.
Proof.
  intros H1 H2.
  destruct (ltb_key x y H1) as (Nx & Ny & K1).
  destruct (leb_key y z H2) as (_ & Nz & K2).
  apply key_ltb; try assumption.
  destruct (key x) as [[a1 a2] a3], (key y) as [[b1 b2] b3],
    (key z) as [[c1 c2] c3].
  unfold key_lt in *.
  destruct K2 as [K2|K2]; [inversion K2; subst; exact K1|lia].
Qed.

Lemma ltb_trans x y z : ltb x y = true -> ltb y z = true -> ltb x z = true.
Proof. intros H1 H2. apply (ltb_leb_trans x y z H1), ltb_leb, H2. Qed.

(** NaN is absorbing for sums and for the dividend of a division. *)
Lemma add_nan_r x : add x nan = nan.
Proof. destruct x; reflexivity. Qed.

Lemma add_nan_l x : add nan x = nan.
Proof. reflexivity. Qed.

Lemma div_nan_l y : div nan y = nan.
Proof. reflexivity. Qed.

Lemma sum_from_nan xs : sum_from nan xs = nan.
Proof.
  unfold sum_from. induction xs as [|x xs IH]; [reflexivity|].
  cbn [fold_left]. rewrite add_nan_l. exact IH.
Qed.

Lemma sum_from_In_nan xs : forall acc, In nan xs -> sum_from acc xs = nan.
Proof.
  unfold sum_from. induction xs as [|x xs IH]; intros acc H; [destruct H|].
  cbn [fold_left]. destruct H as [->|H].
  - rewrite add_nan_r. apply sum_from_nan.
  - apply IH. exact H.
Qed.

End PyFloatOrderFacts.

(** ** Passes, epochs and runs *)

Section RunFacts.

Context {T : Torch}.

Implicit Types (w : World) (bs : list Batch) (nodes : list string).

Lemma any_example_true bs : any_example bs = true -> Exists has_example bs.
Proof.
  unfold any_example. intros H. apply existsb_exists in H.
  destruct H as (b & Hin & Hb). apply Exists_exists. exists b.
  split; [exact Hin|]. unfold has_example.
  apply negb_true_iff, Nat.eqb_neq in Hb. exact Hb.
Qed.

Lemma any_example_false bs : any_example bs = false -> Forall no_example bs.
Proof.
  unfold any_example. intros H. apply Forall_forall. intros b Hin.
  unfold no_example.
  destruct (Nat.eqb (len (value (snd b))) 0) eqn:E;
    [apply Nat.eqb_eq; exact E|].
  assert (existsb (fun b => negb (Nat.eqb (len (value (snd b))) 0)) bs = true).
  { apply existsb_exists. exists b. rewrite E. auto. }
  congruence.
Qed.

Lemma any_example_spec bs :
  PyFloat.is_zero (examples_seen bs) = negb (any_example bs).
Proof.
  destruct (any_example bs) eqn:E.
  - apply examples_seen_nonzero, any_example_true, E.
  - rewrite (examples_seen_none bs (any_example_false bs E)). reflexivity.
Qed.

Lemma no_example_any bs : Forall no_example bs <-> any_example bs = false.
Proof.
  split; [|apply any_example_false].
  intros H. destruct (any_example bs) eqn:E; [|reflexivity].
  apply any_example_true, Exists_exists in E. destruct E as (b & Hin & Hb).
  rewrite Forall_forall in H. elim Hb. apply H. exact Hin.
Qed.

(** X1. What [train] does in every case: with no batch it raises
    [UnboundLocalError]; with batches that hold no example it raises
    [ZeroDivisionError], and in no other case; otherwise it returns its
    pair.  In each case the optimizer has stepped on every batch before
    the outcome is known. *)
Theorem train_outcome nodes loss_fn metric_fn bs w :
  train nodes bs loss_fn metric_fn w
  = (after_pass nodes loss_fn bs (in_training w),
     match bs with
     | [] => Raise UnboundLocalError
     | _ :: _ =>
         if any_example bs then Ok (train_value nodes loss_fn metric_fn bs w)
         else Raise ZeroDivisionError
     end)
  /\ (snd (train nodes bs loss_fn metric_fn w) = Raise ZeroDivisionError
      <-> bs <> [] /\ Forall no_example bs).
Proof.
  assert (E : train nodes bs loss_fn metric_fn w
              = (after_pass nodes loss_fn bs (in_training w),
                 match bs with
                 | [] => Raise UnboundLocalError
                 | _ :: _ =>
                     if any_example bs
                     then Ok (train_value nodes loss_fn metric_fn bs w)
                     else Raise ZeroDivisionError
                 end)).
  { rewrite train_result, any_example_spec.
    destruct bs; [reflexivity|]. destruct (any_example (b :: bs)); reflexivity. }
  split; [exact E|]. rewrite E. cbn [snd]. rewrite no_example_any.
  destruct bs as [|b bs].
  - split; [discriminate|intros [H _]; elim H; reflexivity].
  - destruct (any_example (b :: bs)).
    + split; [discriminate|intros [_ H]; discriminate H].
    + split; [intros _; split; [discriminate|reflexivity]|reflexivity].
Qed.

(** X2. What [evaluate] does in every case: it raises [ZeroDivisionError]
    exactly when no batch holds an example, and otherwise returns the sum
    of the per-batch metrics divided by the count, a value fixed by the
    parameters and the batches.  In both cases it leaves the model in
    evaluation mode, gradient tracking as it found it, and everything else
    untouched. *)
Theorem evaluate_outcome nodes metric_fn bs w :
  evaluate nodes bs metric_fn w
  = (after_evaluate bs w,
     if any_example bs
     then Ok (accuracy_value nodes metric_fn (state_dict w) bs)
     else Raise ZeroDivisionError)
  /\ (snd (evaluate nodes bs metric_fn w) = Raise ZeroDivisionError
      <-> Forall no_example bs).
Proof.
  assert (E : evaluate nodes bs metric_fn w
              = (after_evaluate bs w,
                 if any_example bs
                 then Ok (accuracy_value nodes metric_fn (state_dict w) bs)
                 else Raise ZeroDivisionError)).
  { rewrite evaluate_spec. unfold evaluate_value. rewrite any_example_spec.
    destruct (any_example bs); reflexivity. }
  split; [exact E|]. rewrite E. cbn [snd]. rewrite no_example_any.
  destruct (any_example bs); split; try discriminate; reflexivity.
Qed.

(** *** What a training pass depends on *)

Lemma after_batch_same nodes loss_fn (b : Batch) w w' :
  same_model w w' ->
  same_model (after_batch nodes loss_fn b w) (after_batch nodes loss_fn b w')
  /\ grad (after_batch nodes loss_fn b w)
     = grad (after_batch nodes loss_fn b w')
  /\ batch_loss nodes loss_fn w b = batch_loss nodes loss_fn w' b.
Proof.
  intros (E1 & E2 & E3).
  assert (L : batch_loss nodes loss_fn w b = batch_loss nodes loss_fn w' b)
    by (unfold batch_loss; rewrite E1, E3; reflexivity).
  unfold same_model, after_batch.
  cbn [state_dict optimizer training grad]. rewrite L, E1, E2, E3.
  repeat split.
Qed.

Lemma pass_same nodes loss_fn metric_fn bs : forall w w',
  same_model w w' ->
  pass_losses nodes loss_fn w bs = pass_losses nodes loss_fn w' bs
  /\ pass_metrics nodes loss_fn metric_fn w bs
     = pass_metrics nodes loss_fn metric_fn w' bs
  /\ same_model (after_pass nodes loss_fn bs w) (after_pass nodes loss_fn bs w')
  /\ (bs <> [] ->
      grad (after_pass nodes loss_fn bs w)
      = grad (after_pass nodes loss_fn bs w')).
Proof.
  induction bs as [|b bs IH]; intros w w' S.
  - repeat split; try apply S. intros H. elim H. reflexivity.
  - destruct (after_batch_same nodes loss_fn b w w' S) as (S1 & G1 & L1).
    destruct (IH _ _ S1) as (A & B & C & D).
    cbn [pass_losses pass_metrics]. unfold after_pass in *. cbn [fold_left].
    destruct S as (E1 & E2 & E3).
    rewrite A, B, L1, E1, E3.
    repeat split; try apply C.
    intros _. destruct bs as [|b' bs]; [exact G1|apply D; discriminate].
Qed.

(** X3. A training pass depends on the world only through the parameters
    and the state of the optimizer: the value returned, and the
    parameters, optimizer state and (after a batch) gradients it leaves,
    are the same from any two worlds that agree on these.  Gradients left
    by earlier calls, the mode of the model and the checkpoint play no
    part. *)
Theorem train_ignores_stale_state nodes loss_fn metric_fn bs w w' :
  state_dict w = state_dict w' -> optimizer w = optimizer w' ->
  snd (train nodes bs loss_fn metric_fn w)
  = snd (train nodes bs loss_fn metric_fn w')
  /\ state_dict (fst (train nodes bs loss_fn metric_fn w))
     = state_dict (fst (train nodes bs loss_fn metric_fn w'))
  /\ optimizer (fst (train nodes bs loss_fn metric_fn w))
     = optimizer (fst (train nodes bs loss_fn metric_fn w'))
  /\ (bs <> [] ->
      grad (fst (train nodes bs loss_fn metric_fn w))
      = grad (fst (train nodes bs loss_fn metric_fn w'))).
Proof.
  intros E1 E2.
  assert (S : same_model (in_training w) (in_training w'))
    by (repeat split; assumption).
  destruct (pass_same nodes loss_fn metric_fn bs _ _ S) as (A & B & C & D).
  rewrite !train_result. cbn [fst snd]. unfold train_value.
  rewrite A, B. repeat split; try apply C. exact D.
Qed.

(** *** Optimizer steps *)

Lemma steps_app cs1 cs2 : steps (cs1 ++ cs2) = (steps cs1 + steps cs2)%nat.
Proof. unfold steps. rewrite filter_app, length_app. reflexivity. Qed.

Lemma steps_train_calls bs :
  steps (flat_map (fun _ : Batch => train_batch_calls) bs) = List.length bs.
Proof.
  induction bs as [|b bs IH]; [reflexivity|].
  cbn [flat_map List.length]. rewrite steps_app, IH. reflexivity.
Qed.

Lemma steps_evaluate_calls bs : steps (evaluate_calls bs) = 0%nat.
Proof.
  unfold evaluate_calls.
  change (steps ([EvModelEval; EvNoGradEnter]
                   ++ flat_map (fun _ : Batch => [EvModelCall; EvMetricFn]) bs
                   ++ [EvNoGradExit]) = 0%nat).
  rewrite !steps_app.
  replace (steps (flat_map (fun _ : Batch => [EvModelCall; EvMetricFn]) bs))
    with 0%nat; [reflexivity|].
  induction bs as [|b bs IH]; [reflexivity|].
  cbn [flat_map]. rewrite steps_app, <- IH. reflexivity.
Qed.

Lemma train_steps nodes loss_fn metric_fn bs w :
  steps (calls (fst (train nodes bs loss_fn metric_fn w)))
  = (steps (calls w) + List.length bs)%nat.
Proof.
  rewrite train_world.
  destruct (after_pass_frame nodes loss_fn bs (in_training w))
    as (_ & _ & _ & _ & E).
  rewrite E. cbn [in_training set_training log calls].
  rewrite !steps_app, steps_train_calls. cbn. lia.
Qed.

Lemma evaluate_steps nodes metric_fn bs w :
  steps (calls (fst (evaluate nodes bs metric_fn w))) = steps (calls w).
Proof.
  rewrite evaluate_spec. cbn [fst after_evaluate calls].
  rewrite steps_app, steps_evaluate_calls. lia.
Qed.

Lemma maybe_save_steps v w :
  steps (calls (fst (maybe_save v w))) = steps (calls w).
Proof.
  rewrite maybe_save_spec. cbn [fst].
  destruct (PyFloat.ltb v (best w)); [|reflexivity].
  cbn [after_save calls]. rewrite steps_app. cbn. lia.
Qed.

Lemma epoch_run_steps d epoch w w' l :
  epoch_run d epoch w w' l ->
  steps (calls w') = (steps (calls w) + List.length (train_loader d epoch))%nat.
Proof.
  intros [loss train_acc val_acc w1 w2 w3 H1 H2 H3 -> H4].
  pose proof (train_steps feature_names MSELoss WeightedL1Loss
                (train_loader d epoch) w) as A.
  rewrite H1 in A. cbn [fst] in A.
  pose proof (evaluate_steps feature_names WeightedL1Loss (val_loader d) w1)
    as B.
  rewrite H2 in B. cbn [fst] in B.
  pose proof (maybe_save_steps val_acc w2) as C.
  rewrite H3 in C. cbn [fst] in C.
  unfold print, update in H4. inversion H4; subst w'.
  cbn [log calls]. rewrite steps_app. cbn. lia.
Qed.

Lemma epochs_run_steps d epoch n w w' ls :
  epochs_run d epoch n w w' ls ->
  steps (calls w') = (steps (calls w) + batches_trained d epoch n)%nat.
Proof.
  unfold batches_trained.
  induction 1 as [epoch w|epoch n w w1 w2 l ls H1 _ IH].
  - cbn. lia.
  - rewrite IH, (epoch_run_steps _ _ _ _ _ H1).
    cbn [seq map list_sum fold_right].
    fold (list_sum (map (fun k => List.length (train_loader d k))
                      (seq (S epoch) n))). lia.
Qed.

(** The world the test of the best model leaves, whatever its outcome. *)
Lemma testing_phase_world d w :
  fst (testing_phase d w)
  = match checkpoint_pkl w with
    | None => log EvLoad w
    | Some checkpoint =>
        let w2 :=
          after_evaluate (test_loader d)
            (set_state_dict checkpoint (log EvLoadStateDict (log EvLoad w))) in
        match evaluate_value feature_names WeightedL1Loss checkpoint
                (test_loader d) with
        | Ok test_acc => log (EvPrint (LTestAcc test_acc)) w2
        | Raise _ => w2
        end
    end.
Proof.
  destruct (checkpoint_pkl w) as [checkpoint|] eqn:C.
  - unfold testing_phase. unfold bind at 1. unfold torch_load. rewrite C.
    unfold bind at 1. unfold model_load_state_dict, update.
    unfold bind at 1. rewrite evaluate_spec.
    cbn [set_state_dict state_dict].
    destruct (evaluate_value _ _ _ _); reflexivity.
  - rewrite testing_phase_missing by exact C. reflexivity.
Qed.

Lemma testing_phase_steps d w :
  steps (calls (fst (testing_phase d w))) = steps (calls w).
Proof.
  rewrite testing_phase_world.
  destruct (checkpoint_pkl w) as [checkpoint|]; cbv zeta.
  - destruct (evaluate_value _ _ _ _);
      cbn [log after_evaluate set_state_dict calls];
      rewrite ?steps_app, steps_evaluate_calls; cbn; lia.
  - cbn [log calls]. rewrite steps_app. cbn. lia.
Qed.

Lemma training_phase_of_run d n w w1 ls :
  epochs_run d 0 n (after_setup w) w1 ls ->
  training_phase d n w = (w1, Ok tt).
Proof.
  intros R. rewrite training_phase_spec. apply (epochs_of_run _ _ _ _ _ _ R).
Qed.

(** X4. In a run whose epochs complete, [optimizer.step()] is called once
    for each batch of each training pass, and nowhere else: neither the
    evaluation passes, nor the checkpoint, nor the final test step the
    optimizer. *)
Theorem one_step_per_training_batch d num_epochs w w1 ls :
  epochs_run d 0 num_epochs (after_setup w) w1 ls ->
  steps (calls (fst (main d num_epochs w)))
  = (steps (calls w) + batches_trained d 0 num_epochs)%nat.
Proof.
  intros R.
  rewrite (main_spec _ _ _ _ (training_phase_of_run _ _ _ _ _ R)).
  rewrite testing_phase_steps, (epochs_run_steps _ _ _ _ _ _ R).
  cbn [after_setup calls]. rewrite steps_app. cbn. lia.
Qed.

(** *** Values that are not numbers *)

(** X5. One batch of the validation set whose metric is NaN makes the
    validation metric of the epoch NaN, whatever the other batches give;
    the epoch then prints NaN and leaves [best] and the checkpoint as they
    were. *)
Theorem nan_batch_poisons_validation d epoch w w1 (loss train_acc : float) :
  train feature_names (train_loader d epoch) MSELoss WeightedL1Loss w
    = (w1, Ok (loss, train_acc)) ->
  Exists has_example (val_loader d) ->
  In PyFloat.nan
    (eval_metrics feature_names WeightedL1Loss (state_dict w1) (val_loader d)) ->
  evaluate feature_names (val_loader d) WeightedL1Loss w1
  = (after_evaluate (val_loader d) w1, Ok PyFloat.nan)
  /\ epoch_body d epoch tt w
     = (log (EvPrint (LProgress epoch loss train_acc PyFloat.nan))
          (after_evaluate (val_loader d) w1), Ok tt).
Proof.
  intros H1 Hv Hn.
  assert (E : evaluate feature_names (val_loader d) WeightedL1Loss w1
              = (after_evaluate (val_loader d) w1, Ok PyFloat.nan)).
  { rewrite evaluate_spec, (evaluate_value_ok _ _ _ _ Hv).
    unfold accuracy_value.
    rewrite (PyFloatOrderFacts.sum_from_In_nan _ _ Hn). reflexivity. }
  split; [exact E|].
  unfold epoch_body. unfold bind at 1. rewrite H1.
  unfold bind at 1. rewrite E. unfold bind at 1.
  rewrite maybe_save_spec, PyFloatFacts.ltb_nan_l. reflexivity.
Qed.

(** X6. One batch whose loss is NaN makes the loss [train] returns NaN;
    the pass does not stop at it: the optimizer still steps on every
    batch. *)
Theorem nan_batch_poisons_loss nodes loss_fn metric_fn bs w :
  Exists has_example bs ->
  In PyFloat.nan (pass_losses nodes loss_fn (in_training w) bs) ->
  train nodes bs loss_fn metric_fn w
  = (after_pass nodes loss_fn bs (in_training w),
     Ok (PyFloat.nan, snd (train_value nodes loss_fn metric_fn bs w))).
Proof.
  intros H Hn. rewrite (train_spec _ _ _ _ _ H). unfold train_value.
  rewrite (PyFloatOrderFacts.sum_from_In_nan _ _ Hn). reflexivity.
Qed.

(** *** The checkpoint over a run *)

(** X7. The checkpoint block is idempotent: run twice on the same metric it
    does what one run does.  A metric equal to [best] does not save again,
    so of two epochs with the same metric the earlier one keeps the
    checkpoint. *)
Theorem checkpoint_block_idempotent (v : float) w :
  maybe_save_all [v; v] w = maybe_save v w.
Proof.
  unfold maybe_save_all. cbn [for_each]. unfold bind at 1.
  rewrite (maybe_save_spec v w).
  destruct (PyFloat.ltb v (best w)) eqn:E.
  - unfold bind at 1. rewrite maybe_save_spec. cbn [after_save best].
    rewrite PyFloatOrderFacts.ltb_irrefl. reflexivity.
  - unfold bind at 1. rewrite maybe_save_spec, E. reflexivity.
Qed.

Lemma running_best_least vs : forall b,
  PyFloat.is_nan b = false ->
  PyFloat.is_nan (running_best b vs) = false
  /\ PyFloat.leb (running_best b vs) b = true
  /\ Forall (fun v => PyFloat.is_nan v = true
                      \/ PyFloat.leb (running_best b vs) v = true) vs
  /\ (running_best b vs = b \/ In (running_best b vs) vs).
Proof.
  unfold running_best.
  induction vs as [|v vs IH]; intros b Nb; cbn [fold_left].
  - repeat split; auto. apply PyFloatOrderFacts.leb_refl. exact Nb.
  - set (b' := if PyFloat.ltb v b then v else b).
    assert (Nb' : PyFloat.is_nan b' = false).
    { unfold b'. destruct (PyFloat.ltb v b) eqn:E; [|exact Nb].
      apply (PyFloatOrderFacts.ltb_not_nan _ _ E). }
    assert (Lb : PyFloat.leb b' b = true).
    { unfold b'. destruct (PyFloat.ltb v b) eqn:E.
      - apply PyFloatOrderFacts.ltb_leb. exact E.
      - apply PyFloatOrderFacts.leb_refl. exact Nb. }
    destruct (IH b' Nb') as (A & B & C & D).
    split; [exact A|]. split; [exact (PyFloatOrderFacts.leb_trans _ _ _ B Lb)|].
    split.
    + constructor; [|exact C].
      destruct (PyFloat.is_nan v) eqn:Nv; [left; reflexivity|right].
      apply (PyFloatOrderFacts.leb_trans _ b'); [exact B|].
      unfold b'. destruct (PyFloat.ltb v b) eqn:E.
      * apply PyFloatOrderFacts.leb_refl. exact Nv.
      * apply PyFloatOrderFacts.not_ltb_leb; assumption.
    + destruct D as [D|D]; [|right; right; exact D].
      rewrite D. unfold b'. destruct (PyFloat.ltb v b).
      * right. left. reflexivity.
      * left. reflexivity.
Qed.

Lemma epoch_run_best d epoch w w' l :
  epoch_run d epoch w w' l ->
  exists v, line_val_acc l = Some v
            /\ best w' = (if PyFloat.ltb v (best w) then v else best w).
Proof.
  intros [loss train_acc val_acc w1 w2 w3 H1 H2 H3 -> H4].
  exists val_acc. split; [reflexivity|].
  destruct (train_frame feature_names MSELoss WeightedL1Loss
              (train_loader d epoch) w) as (A1 & _).
  rewrite H1 in A1. cbn [fst] in A1.
  destruct (evaluate_frame feature_names WeightedL1Loss (val_loader d) w1)
    as (B1 & _).
  rewrite H2 in B1. cbn [fst] in B1.
  rewrite maybe_save_spec in H3. inversion H3; subst w3.
  unfold print, update in H4. inversion H4; subst w'.
  cbn [log best]. rewrite B1, A1.
  destruct (PyFloat.ltb val_acc (best w)); [reflexivity|congruence].
Qed.

Lemma epochs_run_best d epoch n w w' ls :
  epochs_run d epoch n w w' ls ->
  best w' = running_best (best w) (val_accs ls).
Proof.
  unfold running_best, val_accs.
  induction 1 as [epoch w|epoch n w w1 w2 l ls H1 _ IH]; [reflexivity|].
  destruct (epoch_run_best _ _ _ _ _ H1) as (v & E1 & E2).
  cbn [flat_map]. rewrite E1. cbn [app fold_left]. rewrite IH, E2.
  reflexivity.
Qed.

(** X8. After the epochs of a run, [best] is the least validation metric
    seen: it is not NaN, it is at most [1e10] and at most every validation
    metric printed that is a number, and it is [1e10] or one of these
    metrics. *)
Theorem best_is_least_metric d num_epochs w w1 ls :
  epochs_run d 0 num_epochs (after_setup w) w1 ls ->
  PyFloat.is_nan (best w1) = false
  /\ PyFloat.leb (best w1) (PyFloat.of_int 10000000000) = true
  /\ Forall (fun v => PyFloat.is_nan v = true
                      \/ PyFloat.leb (best w1) v = true) (val_accs ls)
  /\ (best w1 = PyFloat.of_int 10000000000 \/ In (best w1) (val_accs ls)).
Proof.
  intros R. rewrite (epochs_run_best _ _ _ _ _ _ R).
  cbn [after_setup best].
  apply (running_best_least (val_accs ls) best_init). reflexivity.
Qed.

Lemma epoch_run_checkpoint d epoch w w' l :
  epoch_run d epoch w w' l ->
  (best w' = best w /\ checkpoint_pkl w' = checkpoint_pkl w
   /\ saves (calls w') = saves (calls w))
  \/ (exists checkpoint,
        checkpoint_pkl w' = Some checkpoint
        /\ accuracy_value feature_names WeightedL1Loss checkpoint
             (val_loader d) = best w'
        /\ saves (calls w') = S (saves (calls w))).
Proof.
  intros R. pose proof R as R'.
  destruct R' as [loss train_acc val_acc w1 w2 w3 H1 H2 H3 -> H4].
  destruct (PyFloat.ltb val_acc (best w)) eqn:E.
  - right.
    destruct (train_frame feature_names MSELoss WeightedL1Loss
                (train_loader d epoch) w) as (A1 & A2 & A3).
    rewrite H1 in A1, A2, A3. cbn [fst] in A1, A2, A3.
    rewrite evaluate_spec in H2. inversion H2 as [[W2 V]]. clear H2.
    unfold evaluate_value in V.
    destruct (PyFloat.is_zero (examples_seen (val_loader d)));
      [discriminate|]. inversion V as [V']. clear V. subst val_acc.
    rewrite maybe_save_spec in H3.
    rewrite <- W2 in H3. cbn [after_evaluate best] in H3.
    rewrite A1, E in H3. inversion H3; subst w3.
    unfold print, update in H4. inversion H4; subst w'.
    exists (state_dict w1).
    cbn [log after_save after_evaluate checkpoint_pkl best calls state_dict].
    split; [reflexivity|]. split; [reflexivity|].
    rewrite !saves_app, saves_evaluate_calls, A3. cbn. lia.
  - left. apply (epoch_run_no_save _ _ _ _ _ R). cbn [line_val_acc]. exact E.
Qed.

Lemma epochs_run_checkpoint d epoch n w w' ls :
  epochs_run d epoch n w w' ls ->
  (best w' = best w /\ checkpoint_pkl w' = checkpoint_pkl w
   /\ saves (calls w') = saves (calls w))
  \/ (exists checkpoint,
        checkpoint_pkl w' = Some checkpoint
        /\ accuracy_value feature_names WeightedL1Loss checkpoint
             (val_loader d) = best w'
        /\ (saves (calls w) < saves (calls w'))%nat).
Proof.
  induction 1 as [epoch w|epoch n w w1 w2 l ls H1 _ IH].
  - left. repeat split.
  - destruct (epoch_run_checkpoint _ _ _ _ _ H1)
      as [(A1 & A2 & A3)|(ck & A1 & A2 & A3)];
      destruct IH as [(B1 & B2 & B3)|(ck' & B1 & B2 & B3)].
    + left. repeat split; congruence.
    + right. exists ck'. repeat split; try assumption. lia.
    + right. exists ck. repeat split; try congruence. lia.
    + right. exists ck'. repeat split; try assumption. lia.
Qed.

(** X9. After the epochs of a run, either no epoch saved, and [best] and
    the checkpoint file are as the set-up left them, or the file holds
    parameters whose metric on the validation set is exactly [best]. *)
Theorem checkpoint_holds_best_parameters d num_epochs w w1 ls :
  epochs_run d 0 num_epochs (after_setup w) w1 ls ->
  (best w1 = PyFloat.of_int 10000000000
   /\ checkpoint_pkl w1 = checkpoint_pkl w
   /\ saves (calls w1) = saves (calls w))
  \/ (exists checkpoint,
        checkpoint_pkl w1 = Some checkpoint
        /\ accuracy_value feature_names WeightedL1Loss checkpoint
             (val_loader d) = best w1
        /\ (saves (calls w) < saves (calls w1))%nat).
Proof.
  intros R.
  destruct (epochs_run_checkpoint _ _ _ _ _ _ R)
    as [(A1 & A2 & A3)|(ck & A1 & A2 & A3)];
    cbn [after_setup best checkpoint_pkl calls] in *;
    rewrite saves_app in A3; cbn in A3.
  - left. repeat split; try assumption. lia.
  - right. exists ck. repeat split; try assumption. lia.
Qed.

(** *** The test of the best model *)

(** The world after the test of the checkpoint [checkpoint] from [w]. *)
Lemma testing_phase_ok d checkpoint w :
  checkpoint_pkl w = Some checkpoint ->
  Exists has_example (test_loader d) ->
  testing_phase d w
  = (log (EvPrint (LTestAcc (accuracy_value feature_names WeightedL1Loss
                               checkpoint (test_loader d))))
       (after_evaluate (test_loader d)
          (set_state_dict checkpoint (log EvLoadStateDict (log EvLoad w)))),
     Ok tt).
Proof.
  intros C Ht.
  unfold testing_phase. unfold bind at 1. unfold torch_load. rewrite C.
  unfold bind at 1. unfold model_load_state_dict, update.
  unfold bind at 1. rewrite evaluate_spec, (evaluate_value_ok _ _ _ _ Ht).
  reflexivity.
Qed.

(** *** What is printed *)

Lemma printed_app cs1 cs2 : printed (cs1 ++ cs2) = printed cs1 ++ printed cs2.
Proof. unfold printed. apply flat_map_app. Qed.

Lemma printed_train_calls bs :
  printed (flat_map (fun _ : Batch => train_batch_calls) bs) = [].
Proof.
  induction bs as [|b bs IH]; [reflexivity|].
  cbn [flat_map]. rewrite printed_app, IH. reflexivity.
Qed.

Lemma printed_evaluate_calls bs : printed (evaluate_calls bs) = [].
Proof.
  unfold evaluate_calls.
  change (printed ([EvModelEval; EvNoGradEnter]
                     ++ flat_map (fun _ : Batch => [EvModelCall; EvMetricFn]) bs
                     ++ [EvNoGradExit]) = []).
  rewrite !printed_app.
  replace (printed (flat_map (fun _ : Batch => [EvModelCall; EvMetricFn]) bs))
    with (@nil Line); [reflexivity|].
  induction bs as [|b bs IH]; [reflexivity|].
  cbn [flat_map]. rewrite printed_app, <- IH. reflexivity.
Qed.

Lemma epoch_run_printed d epoch w w' l :
  epoch_run d epoch w w' l ->
  printed (calls w') = printed (calls w) ++ [l] /\ line_epoch l = Some epoch.
Proof.
  intros [loss train_acc val_acc w1 w2 w3 H1 H2 H3 -> H4].
  split; [|reflexivity].
  assert (A : printed (calls w1) = printed (calls w)).
  { replace w1 with (fst (train feature_names (train_loader d epoch) MSELoss
                            WeightedL1Loss w)) by (rewrite H1; reflexivity).
    rewrite train_world.
    destruct (after_pass_frame feature_names MSELoss (train_loader d epoch)
                (in_training w)) as (_ & _ & _ & _ & E).
    rewrite E. cbn [in_training set_training log calls].
    rewrite !printed_app, printed_train_calls. cbn.
    rewrite !app_nil_r. reflexivity. }
  rewrite evaluate_spec in H2. inversion H2 as [[W2 V]]. clear H2 V.
  subst w2. rewrite maybe_save_spec in H3. inversion H3; subst w3.
  unfold print, update in H4. inversion H4; subst w'.
  cbn [log calls]. rewrite printed_app. f_equal.
  destruct (PyFloat.ltb val_acc _);
    cbn [after_save after_evaluate calls];
    rewrite ?printed_app, printed_evaluate_calls, A; cbn;
    rewrite ?app_nil_r; reflexivity.
Qed.

Lemma epochs_run_printed d epoch n w w' ls :
  epochs_run d epoch n w w' ls ->
  printed (calls w') = printed (calls w) ++ ls
  /\ map line_epoch ls = map Some (seq epoch n).
Proof.
  induction 1 as [epoch w|epoch n w w1 w2 l ls H1 _ IH].
  - rewrite app_nil_r. split; reflexivity.
  - destruct (epoch_run_printed _ _ _ _ _ H1) as [A1 A2].
    destruct IH as [B1 B2].
    split.
    + rewrite B1, A1, <- app_assoc. reflexivity.
    + cbn [map seq]. rewrite A2, B2. reflexivity.
Qed.





(** X13. Below [2^53] examples, [evaluate] on a loader with an example
    returns the sum of the per-batch metrics divided by the float of the
    number of examples: the accumulation of the count loses nothing. *)
Theorem evaluate_divides_by_the_number_of_examples nodes metric_fn bs w :
  Exists has_example bs ->
  Z.of_nat (total_examples bs) < 2 ^ 53 ->
  evaluate nodes bs metric_fn w
  = (after_evaluate bs w,
     Ok (PyFloat.div
           (PyFloat.sum_from PyFloat.zero
              (eval_metrics nodes metric_fn (state_dict w) bs))
           (PyFloat.of_int (Z.of_nat (total_examples bs))))).
Proof.
  intros H Hn. rewrite evaluate_spec, (evaluate_value_ok _ _ _ _ H).
  unfold accuracy_value. rewrite (examples_seen_exact bs Hn). reflexivity.
Qed.

(** *** What the epochs do to the parameters and to the checkpoint *)

Lemma epoch_run_model d epoch w w' l :
  epoch_run d epoch w w' l ->
  state_dict w'
  = state_dict (after_pass feature_names MSELoss (train_loader d epoch)
                  (in_training w))
  /\ optimizer w'
     = optimizer (after_pass feature_names MSELoss (train_loader d epoch)
                    (in_training w)).
Proof.
  intros [loss train_acc val_acc w1 w2 w3 H1 H2 H3 -> H4].
  assert (A : w1 = after_pass feature_names MSELoss (train_loader d epoch)
                     (in_training w)).
  { rewrite <- train_world with (metric_fn := WeightedL1Loss). rewrite H1.
    reflexivity. }
  rewrite evaluate_spec in H2. inversion H2 as [[W2 V]]. clear H2 V. subst w2.
  rewrite maybe_save_spec in H3. inversion H3; subst w3.
  unfold print, update in H4. inversion H4; subst w'.
  rewrite <- A. cbn [log state_dict optimizer].
  destruct (PyFloat.ltb val_acc _); split; reflexivity.
Qed.

(** X14. The validation and test sets have no part in the training: two
    runs of the epochs with the same training passes, from the same
    parameters and optimizer state, end with the same parameters and
    optimizer state whatever their validation and test loaders are. *)
Theorem validation_never_influences_training d d' n :
  forall epoch w w' w1 w1' ls ls',
  (forall k, train_loader d k = train_loader d' k) ->
  state_dict w = state_dict w' -> optimizer w = optimizer w' ->
  epochs_run d epoch n w w1 ls ->
  epochs_run d' epoch n w' w1' ls' ->
  state_dict w1 = state_dict w1' /\ optimizer w1 = optimizer w1'.
Proof.
  induction n as [|n IH]; intros epoch w w' w1 w1' ls ls' Hd E1 E2 R R'.
  - inversion R; subst. inversion R'; subst. split; assumption.
  - inversion R as [|? ? ? wa ? l la Ra Rb]; subst.
    inversion R' as [|? ? ? wa' ? l' la' Ra' Rb']; subst.
    destruct (epoch_run_model _ _ _ _ _ Ra) as [A1 A2].
    destruct (epoch_run_model _ _ _ _ _ Ra') as [A1' A2'].
    assert (Sm : same_model (in_training w) (in_training w'))
      by (repeat split; assumption).
    destruct (pass_same feature_names MSELoss WeightedL1Loss
                (train_loader d epoch) _ _ Sm) as (_ & _ & (C1 & C2 & _) & _).
    apply (IH (S epoch) wa wa' w1 w1' la la' Hd); try assumption.
    + rewrite A1, A1', <- Hd. exact C1.
    + rewrite A2, A2', <- Hd. exact C2.
Qed.

(** *** An epoch in closed form *)

(** A pass of [train] that returns, and a pass of [evaluate] that returns:
    the world they leave and the value they return. *)
Lemma train_ok nodes loss_fn metric_fn bs w w1 (r : float * float) :
  train nodes bs loss_fn metric_fn w = (w1, Ok r) ->
  w1 = after_pass nodes loss_fn bs (in_training w)
  /\ r = train_value nodes loss_fn metric_fn bs w.
Proof.
  rewrite train_result. intros H.
  destruct bs as [|b bs]; [discriminate H|].
  destruct (PyFloat.is_zero (examples_seen (b :: bs))); [discriminate H|].
  inversion H. split; reflexivity.
Qed.

Lemma evaluate_ok nodes metric_fn bs w w2 (a : float) :
  evaluate nodes bs metric_fn w = (w2, Ok a) ->
  w2 = after_evaluate bs w
  /\ a = accuracy_value nodes metric_fn (state_dict w) bs.
Proof.
  rewrite evaluate_spec. unfold evaluate_value. intros H.
  destruct (PyFloat.is_zero (examples_seen bs)); [discriminate H|].
  inversion H. split; reflexivity.
Qed.

(** An epoch that completes is the one [after_epoch] describes. *)
Lemma epoch_run_unique d epoch w w' l :
  epoch_run d epoch w w' l -> (w', l) = after_epoch d epoch w.
Proof.
  intros [loss train_acc val_acc w1 w2 w3 H1 H2 H3 -> H4].
  destruct (train_ok _ _ _ _ _ _ _ H1) as [-> Er].
  destruct (evaluate_ok _ _ _ _ _ _ H2) as [-> ->].
  rewrite maybe_save_spec in H3. inversion H3; subst w3.
  unfold print, update in H4. inversion H4; subst w'.
  unfold after_epoch. rewrite <- Er. reflexivity.
Qed.

Lemma epochs_run_unique d epoch n w w' ls :
  epochs_run d epoch n w w' ls -> (w', ls) = after_epochs d epoch n w.
Proof.
  induction 1 as [epoch w|epoch n w w1 w2 l ls H1 _ IH]; [reflexivity|].
  cbn [after_epochs]. rewrite <- (epoch_run_unique _ _ _ _ _ H1).
  cbn [fst snd]. rewrite <- IH. reflexivity.
Qed.

(** The validation metric, [best], the checkpoint file and the calls after
    an epoch. *)
Lemma after_epoch_fields d epoch w :
  let w1 :=
    after_pass feature_names MSELoss (train_loader d epoch) (in_training w) in
  let val_acc :=
    accuracy_value feature_names WeightedL1Loss (state_dict w1) (val_loader d) in
  snd (after_epoch d epoch w)
  = LProgress epoch
      (fst (train_value feature_names MSELoss WeightedL1Loss
              (train_loader d epoch) w))
      (snd (train_value feature_names MSELoss WeightedL1Loss
              (train_loader d epoch) w))
      val_acc
  /\ best (fst (after_epoch d epoch w))
     = (if PyFloat.ltb val_acc (best w) then val_acc else best w)
  /\ checkpoint_pkl (fst (after_epoch d epoch w))
     = (if PyFloat.ltb val_acc (best w) then Some (state_dict w1)
        else checkpoint_pkl w)
  /\ state_dict (fst (after_epoch d epoch w)) = state_dict w1
  /\ calls (fst (after_epoch d epoch w)) = calls w ++ epoch_calls d epoch w.
Proof.
  cbv zeta.
  destruct (after_pass_frame feature_names MSELoss (train_loader d epoch)
              (in_training w)) as (E1 & E2 & _ & _ & E5).
  cbn [in_training set_training log best checkpoint_pkl calls] in E1, E2, E5.
  unfold after_epoch, epoch_calls. cbn [fst snd after_evaluate best].
  rewrite E1. split; [reflexivity|].
  destruct (PyFloat.ltb _ (best w));
    cbn [log after_save after_evaluate best checkpoint_pkl calls state_dict];
    rewrite E5, ?E1, ?E2; repeat split;
    rewrite <- !app_assoc; cbn [app]; rewrite <- ?app_assoc; reflexivity.
Qed.

(** *** The epochs that save *)

Lemma save_epochs_train_calls (bs : list Batch) saved rest :
  save_epochs saved (flat_map (fun _ => train_batch_calls) bs ++ rest)
  = save_epochs saved rest.
Proof.
  induction bs as [|b bs IH]; [reflexivity|].
  cbn [flat_map]. rewrite <- app_assoc. exact IH.
Qed.

Lemma save_epochs_evaluate_calls (bs : list Batch) saved rest :
  save_epochs saved (evaluate_calls bs ++ rest) = save_epochs saved rest.
Proof.
  unfold evaluate_calls. cbn [app save_epochs]. rewrite <- app_assoc.
  induction bs as [|b bs IH]; [reflexivity|].
  cbn [flat_map app save_epochs]. exact IH.
Qed.

Lemma save_epochs_epoch_calls d epoch w rest :
  save_epochs false (epoch_calls d epoch w ++ rest)
  = (if PyFloat.ltb
          (accuracy_value feature_names WeightedL1Loss
             (state_dict (after_pass feature_names MSELoss
                            (train_loader d epoch) (in_training w)))
             (val_loader d)) (best w)
     then [epoch] else [])
      ++ save_epochs false rest.
Proof.
  destruct (after_epoch_fields d epoch w) as (L & _). cbv zeta in L.
  unfold epoch_calls. rewrite L.
  cbn [app save_epochs]. rewrite <- !app_assoc.
  rewrite save_epochs_train_calls, save_epochs_evaluate_calls.
  destruct (PyFloat.ltb _ (best w)); reflexivity.
Qed.

Lemma saves_epoch_calls d epoch w :
  saves (epoch_calls d epoch w)
  = (if PyFloat.ltb
          (accuracy_value feature_names WeightedL1Loss
             (state_dict (after_pass feature_names MSELoss
                            (train_loader d epoch) (in_training w)))
             (val_loader d)) (best w)
     then 1 else 0)%nat.
Proof.
  unfold epoch_calls.
  change (EvModelTrain
            :: flat_map (fun _ : Batch => train_batch_calls)
                 (train_loader d epoch))
    with ([EvModelTrain]
            ++ flat_map (fun _ : Batch => train_batch_calls)
                 (train_loader d epoch)).
  rewrite !saves_app, saves_train_calls, saves_evaluate_calls.
  destruct (PyFloat.ltb _ (best w)); reflexivity.
Qed.

(** A metric is below the running best exactly when it is below the first
    [best] and below every metric seen since that is a number. *)
Lemma ltb_running_best v us : forall b,
  PyFloat.ltb v (running_best b us) = improves b us v.
Proof.
  unfold running_best, improves.
  induction us as [|u us IH]; intros b; cbn [fold_left forallb].
  - rewrite andb_true_r. reflexivity.
  - rewrite IH, andb_assoc. f_equal.
    destruct (PyFloat.ltb u b) eqn:E.
    + destruct (PyFloatOrderFacts.ltb_not_nan _ _ E) as [Nu _]. rewrite Nu.
      cbn [orb]. destruct (PyFloat.ltb v u) eqn:F.
      * rewrite (PyFloatOrderFacts.ltb_trans _ _ _ F E). reflexivity.
      * rewrite andb_false_r. reflexivity.
    + destruct (PyFloat.ltb v b) eqn:F; [|reflexivity].
      destruct (PyFloat.is_nan u) eqn:Nu; [reflexivity|].
      destruct (PyFloatOrderFacts.ltb_not_nan _ _ F) as [_ Nb].
      cbn [orb andb]. symmetry.
      apply (PyFloatOrderFacts.ltb_leb_trans _ _ _ F).
      apply PyFloatOrderFacts.not_ltb_leb; assumption.
Qed.

Lemma running_best_app b us v :
  running_best b (us ++ [v])
  = (if PyFloat.ltb v (running_best b us) then v else running_best b us).
Proof. unfold running_best. rewrite fold_left_app. reflexivity. Qed.

Lemma epochs_run_save_epochs d epoch n w w' ls :
  epochs_run d epoch n w w' ls ->
  forall b earlier, best w = running_best b earlier ->
  exists cs,
    calls w' = calls w ++ cs
    /\ save_epochs false cs = improving_epochs b earlier epoch (val_accs ls)
    /\ saves cs
       = List.length (improving_epochs b earlier epoch (val_accs ls)).
Proof.
  induction 1 as [epoch w|epoch n w w1 w2 l ls H1 _ IH]; intros b earlier Hb.
  - exists []. rewrite app_nil_r. repeat split.
  - pose proof (epoch_run_unique _ _ _ _ _ H1) as U.
    destruct (after_epoch_fields d epoch w) as (A1 & A2 & _ & _ & A5).
    cbv zeta in A1, A2, A5.
    rewrite <- U in A1, A2, A5. cbn [fst snd] in A1, A2, A5.
    pose proof (save_epochs_epoch_calls d epoch w) as S1.
    pose proof (saves_epoch_calls d epoch w) as S2.
    set (v := accuracy_value feature_names WeightedL1Loss
                (state_dict (after_pass feature_names MSELoss
                               (train_loader d epoch) (in_training w)))
                (val_loader d)) in *.
    assert (Hb1 : best w1 = running_best b (earlier ++ [v])).
    { rewrite running_best_app, <- Hb. exact A2. }
    destruct (IH b (earlier ++ [v]) Hb1) as (cs & C1 & C2 & C3).
    exists (epoch_calls d epoch w ++ cs).
    unfold val_accs in *. cbn [flat_map]. rewrite A1.
    cbn [line_val_acc app improving_epochs].
    rewrite <- (ltb_running_best v earlier b), <- Hb.
    split; [rewrite C1, A5, app_assoc; reflexivity|]. split.
    + rewrite S1, C2. reflexivity.
    + rewrite saves_app, S2, C3, length_app.
      destruct (PyFloat.ltb v (best w)); reflexivity.
Qed.

(** X15. Over the epochs of a run [torch.save] is called once in each epoch
    whose validation metric is strictly below [1e10] and strictly below the
    metric of every earlier epoch that is a number, and in no other epoch.
    An earlier metric that is not a number is passed over: the epoch after
    it may save although no metric is below NaN. *)
Theorem saves_are_the_improvements d num_epochs w w1 ls :
  epochs_run d 0 num_epochs (after_setup w) w1 ls ->
  exists cs,
    calls w1 = calls w ++ EvPrint LHeader :: cs
    /\ save_epochs false cs
       = improving_epochs (PyFloat.of_int 10000000000) [] 0 (val_accs ls)
    /\ saves cs
       = List.length
           (improving_epochs (PyFloat.of_int 10000000000) [] 0 (val_accs ls))
    /\ (forall v,
          PyFloat.ltb v (PyFloat.of_int 10000000000) = true ->
          improving_epochs (PyFloat.of_int 10000000000) [] 0 [PyFloat.nan; v]
          = [1%nat]).
Proof.
  intros R.
  destruct (epochs_run_save_epochs _ _ _ _ _ _ R best_init [] eq_refl)
    as (cs & C1 & C2 & C3).
  exists cs. cbn [after_setup calls] in C1.
  rewrite <- app_assoc in C1. cbn [app] in C1.
  split; [exact C1|]. split; [exact C2|]. split; [exact C3|].
  intros v Hv. cbn [improving_epochs app]. unfold improves.
  cbn [forallb]. rewrite PyFloatFacts.ltb_nan_l, Hv. reflexivity.
Qed.

(** *** The driver, from the set-up to the test *)

(** The test of the best model in every case. *)
Lemma testing_phase_result d w :
  testing_phase d w
  = match checkpoint_pkl w with
    | None => (log EvLoad w, Raise FileNotFoundError)
    | Some checkpoint =>
        let w2 :=
          after_evaluate (test_loader d)
            (set_state_dict checkpoint (log EvLoadStateDict (log EvLoad w))) in
        match evaluate_value feature_names WeightedL1Loss checkpoint
                (test_loader d) with
        | Ok test_acc => (log (EvPrint (LTestAcc test_acc)) w2, Ok tt)
        | Raise e => (w2, Raise e)
        end
    end.
Proof.
  destruct (checkpoint_pkl w) as [checkpoint|] eqn:C.
  - unfold testing_phase. unfold bind at 1. unfold torch_load. rewrite C.
    unfold bind at 1. unfold model_load_state_dict, update.
    unfold bind at 1. rewrite evaluate_spec.
    cbn [set_state_dict state_dict].
    destruct (evaluate_value _ _ _ _); reflexivity.
  - apply testing_phase_missing. exact C.
Qed.

(** After the epochs there is no checkpoint file exactly when there was none
    before them and no epoch had a metric below [best]. *)
Lemma epochs_run_no_checkpoint d epoch n w w' ls :
  epochs_run d epoch n w w' ls ->
  checkpoint_pkl w' = None
  <-> checkpoint_pkl w = None /\ none_below (best w) ls = true.
Proof.
  induction 1 as [epoch w|epoch n w w1 w2 l ls H1 _ IH].
  - cbn. tauto.
  - pose proof (epoch_run_unique _ _ _ _ _ H1) as U.
    destruct (after_epoch_fields d epoch w) as (A1 & A2 & A3 & _).
    cbv zeta in A1, A2, A3.
    rewrite <- U in A1, A2, A3. cbn [fst snd] in A1, A2, A3.
    cbn [none_below forallb]. rewrite A1. cbn [line_val_acc].
    fold (none_below (best w) ls).
    destruct (PyFloat.ltb _ (best w)); cbn [negb andb].
    + rewrite IH, A3. split; [intros [E _]; discriminate E|].
      intros [_ E]; discriminate E.
    + rewrite IH, A3, A2. tauto.
Qed.

(** C5, as amended.  On loaders whose passes yield examples, the driver
    runs the epochs [0 .. num_epochs - 1] in order.  Each epoch is a
    training pass returning [(loss, train_acc)], an evaluation pass on the
    validation set returning [val_acc], the checkpoint block on [val_acc]
    and the progress line [(epoch, loss, train_acc, val_acc)], with their
    calls in this order.  After the epochs it loads the checkpoint file.
    When the file exists it puts its parameters into the model, evaluates
    on the test set and prints the test accuracy.  When no file exists,
    which is when none was there before the run and no epoch had a metric
    below [1e10], the load raises [FileNotFoundError], and nothing is
    restored, evaluated or printed. *)
Theorem driver_runs_epochs_then_tests d num_epochs w :
  (forall epoch, (epoch < num_epochs)%nat ->
     Exists has_example (train_loader d epoch)) ->
  Exists has_example (val_loader d) ->
  Exists has_example (test_loader d) ->
  let w1 := fst (after_epochs d 0 num_epochs (after_setup w)) in
  let ls := snd (after_epochs d 0 num_epochs (after_setup w)) in
  (forall epoch w0, (epoch < num_epochs)%nat ->
     epoch_body d epoch tt w0 = (fst (after_epoch d epoch w0), Ok tt)
     /\ calls (fst (after_epoch d epoch w0))
        = calls w0 ++ epoch_calls d epoch w0)
  /\ training_phase d num_epochs w = (w1, Ok tt)
  /\ printed (calls w1) = printed (calls w) ++ LHeader :: ls
  /\ map line_epoch ls = map Some (seq 0 num_epochs)
  /\ (checkpoint_pkl w1 = None
      <-> checkpoint_pkl w = None
          /\ none_below (PyFloat.of_int 10000000000) ls = true)
  /\ match checkpoint_pkl w1 with
     | Some checkpoint =>
         let w2 :=
           log (EvPrint (LTestAcc (accuracy_value feature_names WeightedL1Loss
                                     checkpoint (test_loader d))))
             (after_evaluate (test_loader d)
                (set_state_dict checkpoint
                   (log EvLoadStateDict (log EvLoad w1)))) in
         main d num_epochs w = (w2, Ok tt)
         /\ state_dict w2 = checkpoint
         /\ calls w2 = calls w1 ++ test_calls d checkpoint
     | None =>
         main d num_epochs w = (log EvLoad w1, Raise FileNotFoundError)
     end.
Proof.
  intros Ht Hv Hs.
  pose proof (epochs_run_after_epochs d num_epochs 0%nat (after_setup w)
                (fun k Hk => Ht k ltac:(lia)) Hv) as R.
  set (w1 := fst (after_epochs d 0 num_epochs (after_setup w))) in *.
  set (ls := snd (after_epochs d 0 num_epochs (after_setup w))) in *.
  cbv zeta.
  destruct (epochs_run_printed _ _ _ _ _ _ R) as [P1 P2].
  cbn [after_setup calls] in P1. rewrite printed_app in P1. cbn in P1.
  pose proof (training_phase_of_run _ _ _ _ _ R) as P.
  split.
  { intros epoch w0 Hk. split.
    - apply (epoch_body_of_run _ _ _ _ (snd (after_epoch d epoch w0))).
      apply epoch_run_after_epoch; [apply Ht; exact Hk|exact Hv].
    - apply (after_epoch_fields d epoch w0). }
  split; [exact P|]. split; [rewrite P1, <- app_assoc; reflexivity|].
  split; [exact P2|]. split; [apply (epochs_run_no_checkpoint _ _ _ _ _ _ R)|].
  rewrite (main_spec _ _ _ _ P).
  destruct (checkpoint_pkl w1) as [checkpoint|] eqn:C.
  - split; [apply (testing_phase_ok _ _ _ C Hs)|].
    split; [reflexivity|].
    unfold test_calls. cbn [log after_evaluate set_state_dict calls].
    rewrite <- !app_assoc. reflexivity.
  - apply testing_phase_missing. exact C.
Qed.

(** C9, as amended.  [best] starts at [1e10], and the first checkpoint
    block saves exactly the metrics strictly below it.  When every epoch of
    a run has a validation metric of at least [1e10], the epochs train and
    evaluate as [after_epochs] describes but none saves: after them [best]
    is still [1e10] and the checkpoint file is what it was before the
    run.  When there was no file, the final load raises
    [FileNotFoundError], although epochs were run.  When an earlier run
    left a file, the load does not fail: the parameters of that file go
    into the model and are tested. *)
Theorem sentinel_blocks_large_metrics d num_epochs w w1 ls :
  epochs_run d 0 num_epochs (after_setup w) w1 ls ->
  all_at_least (PyFloat.of_int 10000000000) ls = true ->
  best (after_setup w) = PyFloat.of_int 10000000000
  /\ (w1, ls) = after_epochs d 0 num_epochs (after_setup w)
  /\ best w1 = PyFloat.of_int 10000000000
  /\ checkpoint_pkl w1 = checkpoint_pkl w
  /\ saves (calls w1) = saves (calls w)
  /\ (forall v,
        maybe_save v (after_setup w)
        = (if PyFloat.ltb v (PyFloat.of_int 10000000000)
           then after_save v (after_setup w) else after_setup w, Ok tt))
  /\ match checkpoint_pkl w with
     | None =>
         main d num_epochs w = (log EvLoad w1, Raise FileNotFoundError)
     | Some old =>
         let w2 :=
           after_evaluate (test_loader d)
             (set_state_dict old (log EvLoadStateDict (log EvLoad w1))) in
         main d num_epochs w
         = match evaluate_value feature_names WeightedL1Loss old
                   (test_loader d) with
           | Ok test_acc => (log (EvPrint (LTestAcc test_acc)) w2, Ok tt)
           | Raise e => (w2, Raise e)
           end
         /\ snd (main d num_epochs w) <> Raise FileNotFoundError
         /\ state_dict (fst (main d num_epochs w)) = old
     end.
Proof.
  intros R Hall.
  destruct (epochs_run_no_save _ _ _ _ _ _ R Hall) as (E1 & E2 & E3).
  cbn [after_setup best checkpoint_pkl calls] in E1, E2, E3.
  rewrite saves_app in E3. cbn in E3.
  split; [reflexivity|]. split; [exact (epochs_run_unique _ _ _ _ _ _ R)|].
  split; [exact E1|]. split; [exact E2|]. split; [lia|].
  split; [intros v; apply maybe_save_spec|].
  rewrite (main_spec _ _ _ _ (training_phase_of_run _ _ _ _ _ R)).
  rewrite testing_phase_result, E2.
  destruct (checkpoint_pkl w) as [old|]; [|reflexivity].
  cbv zeta. split; [reflexivity|].
  unfold evaluate_value.
  destruct (PyFloat.is_zero (examples_seen (test_loader d)));
    cbn [fst snd log after_evaluate set_state_dict state_dict];
    split; try reflexivity; discriminate.
Qed.

End RunFacts.

(** ** The further properties on the small instance *)

Section RunInstances.

Import Toy ToyRuns.

Lemma toy_has_example (b : @Batch toy) bs :
  len (value (snd b)) <> 0%nat -> Exists has_example (b :: bs).
Proof. intros H. apply Exists_cons_hd. exact H. Qed.

Lemma train_ignores_stale_state_witness :
  snd (train (T := toy) feature_names [batch1; batch1] loss_fn metric_fn world0)
  = snd (train feature_names [batch1; batch1] loss_fn metric_fn world1)
  /\ state_dict
       (fst (train feature_names [batch1; batch1] loss_fn metric_fn world0))
     = state_dict
         (fst (train feature_names [batch1; batch1] loss_fn metric_fn world1))
  /\ grad (fst (train feature_names [batch1; batch1] loss_fn metric_fn world0))
     = grad (fst (train feature_names [batch1; batch1] loss_fn metric_fn world1)).
Proof.
  destruct (train_ignores_stale_state (T := toy) feature_names loss_fn
              metric_fn [batch1; batch1] world0 world1 eq_refl eq_refl)
    as (A & B & _ & D).
  split; [exact A|]. split; [exact B|]. apply D. discriminate.
Defined.

Lemma loaders_run :
  epochs_run (T := toy) loaders 0 2 (after_setup world0)
    (fst (after_epochs loaders 0 2 (after_setup world0)))
    (snd (after_epochs loaders 0 2 (after_setup world0))).
Proof.
  apply epochs_run_after_epochs.
  - intros k _. apply toy_has_example. discriminate.
  - apply toy_has_example. discriminate.
Qed.

Lemma one_step_per_training_batch_witness :
  steps (calls (fst (main (T := toy) loaders 2 world0))) = 4%nat.
Proof.
  exact (one_step_per_training_batch (T := toy) loaders 2 world0 _ _
           loaders_run).
Defined.

Lemma nan_batch_poisons_validation_witness :
  evaluate (T := toy) feature_names (val_loader loaders_nan_batch)
    WeightedL1Loss
    (after_pass feature_names MSELoss (train_loader loaders_nan_batch 0)
       (in_training world0))
  = (after_evaluate (val_loader loaders_nan_batch)
       (after_pass feature_names MSELoss (train_loader loaders_nan_batch 0)
          (in_training world0)), Ok PyFloat.nan).
Proof.
  assert (Ht : Exists (has_example (T := toy))
                 (train_loader loaders_nan_batch 0))
    by (apply toy_has_example; discriminate).
  assert (Hv : Exists (has_example (T := toy)) (val_loader loaders_nan_batch))
    by (apply toy_has_example; discriminate).
  pose proof (train_spec (T := toy) feature_names MSELoss WeightedL1Loss
                (train_loader loaders_nan_batch 0) world0 Ht) as H1.
  refine (proj1 (nan_batch_poisons_validation (T := toy) loaders_nan_batch
                   0%nat world0 _ _ _ H1 Hv _)).
  right. left. vm_compute. reflexivity.
Defined.

Lemma nan_batch_poisons_loss_witness :
  train (T := toy) feature_names [batch1; batch_nan] loss_fn metric_fn world0
  = (after_pass feature_names loss_fn [batch1; batch_nan] (in_training world0),
     Ok (PyFloat.nan,
         snd (train_value feature_names loss_fn metric_fn [batch1; batch_nan]
                world0))).
Proof.
  apply (nan_batch_poisons_loss (T := toy)).
  - apply toy_has_example. discriminate.
  - right. left. vm_compute. reflexivity.
Defined.

Lemma best_is_least_metric_witness :
  PyFloat.is_nan
    (best (fst (after_epochs (T := toy) loaders 0 2 (after_setup world0))))
  = false
  /\ PyFloat.leb
       (best (fst (after_epochs (T := toy) loaders 0 2 (after_setup world0))))
       (PyFloat.of_int 10000000000) = true.
Proof.
  destruct (best_is_least_metric (T := toy) loaders 2 world0 _ _ loaders_run)
    as (A & B & _).
  split; [exact A|exact B].
Defined.

Lemma checkpoint_holds_best_parameters_witness :
  (best (fst (after_epochs (T := toy) loaders 0 2 (after_setup world0)))
   = PyFloat.of_int 10000000000
   /\ checkpoint_pkl (fst (after_epochs loaders 0 2 (after_setup world0)))
      = checkpoint_pkl world0
   /\ saves (calls (fst (after_epochs loaders 0 2 (after_setup world0))))
      = saves (calls world0))
  \/ (exists checkpoint,
        checkpoint_pkl (fst (after_epochs loaders 0 2 (after_setup world0)))
        = Some checkpoint
        /\ accuracy_value feature_names WeightedL1Loss checkpoint
             (val_loader loaders)
           = best (fst (after_epochs loaders 0 2 (after_setup world0)))
        /\ (saves (calls world0)
            < saves (calls (fst (after_epochs loaders 0 2
                                   (after_setup world0)))))%nat).
Proof.
  exact (checkpoint_holds_best_parameters (T := toy) loaders 2 world0 _ _
           loaders_run).
Defined.




Lemma evaluate_divides_by_the_number_of_examples_witness :
  evaluate (T := toy) feature_names [batch1; batch1] metric_fn world0
  = (after_evaluate [batch1; batch1] world0,
     Ok (PyFloat.div
           (PyFloat.sum_from PyFloat.zero
              (eval_metrics feature_names metric_fn (state_dict world0)
                 [batch1; batch1]))
           (PyFloat.of_int 4))).
Proof.
  apply (evaluate_divides_by_the_number_of_examples (T := toy) feature_names
           metric_fn [batch1; batch1] world0).
  - apply toy_has_example. discriminate.
  - reflexivity.
Defined.

Lemma validation_never_influences_training_witness :
  state_dict (fst (after_epochs (T := toy) loaders 0 2 (after_setup world0)))
  = state_dict
      (fst (after_epochs (T := toy) loaders_nan_far 0 2 (after_setup world1))).
Proof.
  assert (R : epochs_run (T := toy) loaders_nan_far 0 2 (after_setup world1)
                (fst (after_epochs loaders_nan_far 0 2 (after_setup world1)))
                (snd (after_epochs loaders_nan_far 0 2 (after_setup world1)))).
  { apply epochs_run_after_epochs.
    - intros k _. apply toy_has_example. discriminate.
    - apply toy_has_example. discriminate. }
  exact (proj1 (validation_never_influences_training (T := toy) loaders
                  loaders_nan_far 2 0%nat (after_setup world0)
                  (after_setup world1) _ _ _ _ (fun _ => eq_refl) eq_refl
                  eq_refl loaders_run R)).
Defined.

Lemma saves_are_the_improvements_witness :
  exists cs,
    calls (fst (after_epochs (T := toy) loaders 0 2 (after_setup world0)))
    = calls world0 ++ EvPrint LHeader :: cs
    /\ save_epochs false cs = [0%nat]
    /\ saves cs = 1%nat.
Proof.
  destruct (saves_are_the_improvements (T := toy) loaders 2 world0 _ _
              loaders_run) as (cs & A & B & C & _).
  assert (E : improving_epochs (PyFloat.of_int 10000000000) [] 0
                (val_accs
                   (snd (after_epochs (T := toy) loaders 0 2
                           (after_setup world0))))
              = [0%nat])
    by (vm_compute; reflexivity).
  exists cs. rewrite E in B, C. repeat split; assumption.
Defined.

(** C5: a run of [loaders] for two epochs from [world0] saves, and then
    loads, tests and prints. *)
Lemma driver_runs_epochs_then_tests_witness :
  exists w2,
    main (T := toy) loaders 2 world0 = (w2, Ok tt)
    /\ state_dict w2 = -1
    /\ map line_epoch (printed (calls w2))
       = [None; Some 0%nat; Some 1%nat; None]
    /\ exists test_acc, last (printed (calls w2)) LHeader = LTestAcc test_acc.
Proof.
  assert (Ht : forall epoch, (epoch < 2)%nat ->
                 Exists (has_example (T := toy)) (train_loader loaders epoch))
    by (intros epoch _; apply toy_has_example; discriminate).
  assert (Hv : Exists (has_example (T := toy)) (val_loader loaders))
    by (apply toy_has_example; discriminate).
  assert (Hs : Exists (has_example (T := toy)) (test_loader loaders))
    by (apply toy_has_example; discriminate).
  assert (C : checkpoint_pkl
                (fst (after_epochs (T := toy) loaders 0 2 (after_setup world0)))
              = Some (-1)) by reflexivity.
  destruct (driver_runs_epochs_then_tests (T := toy) loaders 2 world0 Ht Hv Hs)
    as (_ & _ & P1 & P2 & _ & M).
  rewrite C in M. destruct M as (M1 & M2 & M3).
  eexists. split; [exact M1|]. split; [exact M2|].
  rewrite M3, printed_app, P1. unfold test_calls.
  rewrite !printed_app, printed_evaluate_calls.
  cbn [calls world0 printed flat_map app].
  split.
  - cbn [map]. rewrite map_app, P2. reflexivity.
  - eexists. rewrite app_comm_cons, last_last. reflexivity.
Defined.

(** C5: with no epoch, and with three epochs whose validation metric is
    NaN, the driver run from a state without checkpoint file ends in
    [FileNotFoundError] at the load: no parameters are restored, the test
    set is not evaluated and no test accuracy is printed. *)
Lemma driver_without_checkpoint_counterexample :
  main (T := toy) loaders 0 world0
  = (log EvLoad (after_setup world0), Raise FileNotFoundError)
  /\ calls (fst (main (T := toy) loaders 0 world0)) = [EvPrint LHeader; EvLoad]
  /\ exists (w1 : @World toy) (ls : list Line),
       epochs_run loaders_nan 0 3 (after_setup world0) w1 ls
       /\ main loaders_nan 3 world0 = (log EvLoad w1, Raise FileNotFoundError)
       /\ printed (calls (log EvLoad w1)) = LHeader :: ls
       /\ map line_epoch ls = [Some 0%nat; Some 1%nat; Some 2%nat]
       /\ state_dict (log EvLoad w1) = -2.
Proof.
  assert (M0 : main (T := toy) loaders 0 world0
               = (log EvLoad (after_setup world0), Raise FileNotFoundError)).
  { rewrite (main_spec loaders 0 world0 (after_setup world0)).
    - apply testing_phase_missing. reflexivity.
    - rewrite training_phase_spec. reflexivity. }
  split; [exact M0|]. split; [rewrite M0; reflexivity|].
  assert (R : epochs_run (T := toy) loaders_nan 0 3 (after_setup world0)
                (fst (after_epochs loaders_nan 0 3 (after_setup world0)))
                (snd (after_epochs loaders_nan 0 3 (after_setup world0)))).
  { apply epochs_run_after_epochs.
    - intros k _. apply toy_has_example. discriminate.
    - apply toy_has_example. discriminate. }
  exists (fst (after_epochs (T := toy) loaders_nan 0 3 (after_setup world0))).
  exists (snd (after_epochs (T := toy) loaders_nan 0 3 (after_setup world0))).
  destruct (epochs_run_printed _ _ _ _ _ _ R) as [P1 P2].
  split; [exact R|]. split.
  - rewrite (main_spec _ _ _ _ (training_phase_of_run _ _ _ _ _ R)).
    apply testing_phase_missing. reflexivity.
  - split; [|split; [exact P2|reflexivity]].
    cbn [log calls]. rewrite printed_app, P1. cbn [printed flat_map app].
    rewrite app_nil_r. reflexivity.
Qed.

(** C9: two epochs of [loaders_far] from a state without checkpoint file. *)
Lemma sentinel_blocks_large_metrics_witness :
  exists (w1 : @World toy) (ls : list Line),
    epochs_run loaders_far 0 2 (after_setup world0) w1 ls
    /\ all_at_least (PyFloat.of_int 10000000000) ls = true
    /\ best w1 = PyFloat.of_int 10000000000
    /\ checkpoint_pkl w1 = None
    /\ saves (calls w1) = saves (calls world0)
    /\ main loaders_far 2 world0 = (log EvLoad w1, Raise FileNotFoundError).
Proof.
  exists (fst (after_epochs (T := toy) loaders_far 0 2 (after_setup world0))).
  exists (snd (after_epochs (T := toy) loaders_far 0 2 (after_setup world0))).
  assert (R : epochs_run (T := toy) loaders_far 0 2 (after_setup world0)
                (fst (after_epochs loaders_far 0 2 (after_setup world0)))
                (snd (after_epochs loaders_far 0 2 (after_setup world0)))).
  { apply epochs_run_after_epochs.
    - intros k _. apply toy_has_example. discriminate.
    - apply toy_has_example. discriminate. }
  assert (L : all_at_least (PyFloat.of_int 10000000000)
                (snd (after_epochs loaders_far 0 2 (after_setup world0)))
              = true)
    by (vm_compute; reflexivity).
  split; [exact R|]. split; [exact L|].
  destruct (sentinel_blocks_large_metrics (T := toy) loaders_far 2 world0
              _ _ R L) as (_ & _ & A & B & C & _ & D).
  repeat split; assumption.
Defined.

(** C9: two epochs of [loaders_far] from a state with a checkpoint file
    left by an earlier run.  Every validation metric is finite and at
    least [1e10] and no epoch saves, yet the final load does not fail: the
    run ends normally with the parameters of the old file in the model. *)
Lemma sentinel_stale_checkpoint_counterexample :
  exists (w1 w2 : @World toy) (ls : list Line),
    epochs_run loaders_far 0 2 (after_setup world_stale) w1 ls
    /\ List.length ls = 2%nat
    /\ all_finite ls = true
    /\ all_at_least (PyFloat.of_int 10000000000) ls = true
    /\ saves (calls w1) = 0%nat
    /\ main loaders_far 2 world_stale = (w2, Ok tt)
    /\ state_dict w1 = -1
    /\ state_dict w2 = 5.
Proof.
  assert (R : epochs_run (T := toy) loaders_far 0 2 (after_setup world_stale)
                (fst (after_epochs loaders_far 0 2 (after_setup world_stale)))
                (snd (after_epochs loaders_far 0 2 (after_setup world_stale)))).
  { apply epochs_run_after_epochs.
    - intros k _. apply toy_has_example. discriminate.
    - apply toy_has_example. discriminate. }
  assert (L : all_at_least (PyFloat.of_int 10000000000)
                (snd (after_epochs loaders_far 0 2 (after_setup world_stale)))
              = true)
    by (vm_compute; reflexivity).
  assert (Ht : Exists (has_example (T := toy)) (test_loader loaders_far))
    by (apply toy_has_example; discriminate).
  destruct (epochs_run_no_save _ _ _ _ _ _ R L) as (_ & E2 & E3).
  exists (fst (after_epochs (T := toy) loaders_far 0 2 (after_setup world_stale))).
  eexists.
  exists (snd (after_epochs (T := toy) loaders_far 0 2 (after_setup world_stale))).
  split; [exact R|]. split; [reflexivity|].
  split; [vm_compute; reflexivity|]. split; [exact L|].
  split; [rewrite E3; reflexivity|]. split.
  - rewrite (main_spec _ _ _ _ (training_phase_of_run _ _ _ _ _ R)).
    apply (testing_phase_ok (T := toy) loaders_far 5).
    + rewrite E2. reflexivity.
    + exact Ht.
  - split; reflexivity.
Qed.

End RunInstances.
